(** * BottomSheet: gesture-to-snap-point engine and spring transition animator

    A shallow embedding of [src/components/BottomSheet.jsx] and the
    properties of its decision logic.

    Numbers.  A JavaScript number is an IEEE 754 binary64 value, so the
    component's numbers are Rocq's primitive [float]s: literals such as
    [0.3] denote the same double as in the source, [<], [<=], [+], [-],
    [*], [/] and [Math.sqrt] are the IEEE operations, and a comparison with
    NaN is false.  [Math.exp], [Math.cos], [Math.sin], [Math.cosh] and
    [Math.sinh] are implementation-approximated in ECMAScript; the float
    model takes them as a parameter ([JSMath]).  The analytic properties of
    the easing curve (value at 0, limit at infinity) are statements about
    real numbers and are proved on a second embedding over [R]
    ([RealSpring]), in which a division by zero is kept visible.

    State.  One value of [State] is what one render of the component sees:
    the [useState] cells, the two [useRef] cells the logic uses, and a log
    of the calls made to the collaborators ([setAnnouncement] from
    [announceSnapPointChange], [onClose]).  A handler reads the state of
    the render it was created in and returns the state of the next render;
    the frame callback [animate] reads only what its closure captured when
    the transition was requested. *)

From Stdlib Require Import List String Bool ZArith Lia Floats Reals Lra.
Import ListNotations.

Set Warnings "-inexact-float".

(** ** The float model of the component *)

Module Sheet.

Local Open Scope string_scope.
Local Open Scope list_scope.
Local Open Scope float_scope.

(** *** JavaScript values used by the component *)

(** [arr.indexOf(x)]: the first index holding [x], or -1. *)
Fixpoint indexOfFrom (l : list string) (x : string) (i : Z) : Z :=
  match l with
  | [] => (-1)%Z
  | h :: r => if String.eqb h x then i else indexOfFrom r x (i + 1)%Z
  end.

Definition indexOf (l : list string) (x : string) : Z := indexOfFrom l x 0%Z.

(** [arr[i]]: the element at an integer index, [None] for [undefined]. *)
Definition arrayGet {A : Type} (l : list A) (i : Z) : option A :=
  if (i <? 0)%Z then None else nth_error l (Z.to_nat i).

Definition arrayLength {A : Type} (l : list A) : Z := Z.of_nat (List.length l).

(** [Math.min(a, b)]: NaN if either is NaN, and -0 is below +0. *)
Definition Math_min (a b : float) : float :=
  if is_nan a || is_nan b then nan
  else if a <? b then a
  else if b <? a then b
  else if get_sign a then a else b.

(** The transcendental functions of [Math]. *)
Record JSMath : Type := {
  Math_exp : float -> float;
  Math_cos : float -> float;
  Math_sin : float -> float;
  Math_cosh : float -> float;
  Math_sinh : float -> float
}.

(** A CSS length as the component writes it: the string [`${num}%`] or
    [`${num}px`].  [parseFloat] of such a string gives [num] back (number
    to string conversion round-trips), [includes('%')] and the unit left
    by [replace(/[\d.]/g, '')] are decided by [unit]. *)
Inductive LengthUnit : Type := Percent | Pixel.

Record Length : Type := { num : float; unit : LengthUnit }.

Definition pct (x : float) : Length := {| num := x; unit := Percent |}.
Definition px (x : float) : Length := {| num := x; unit := Pixel |}.

(** *** Data of the component *)

Record SnapConfig : Type := {
  height : Length;
  contentVisible : bool;
  showHandle : bool;
  showSnapButtons : bool;
  threshold : float;
  maxWidth : Length
}.

Record SpringConfig : Type := {
  tension : float;
  friction : float;
  mass : float
}.

(** An entry of [velocityRef.current]. *)
Record Sample : Type := { y : float; time : float }.

(** The closure [animate] handed to [requestAnimationFrame]: what it
    captured when [animateToSnapPoint] ran. *)
Record Animation : Type := {
  targetSnapPoint : string;
  startTime : float;
  duration : float;
  spring : SpringConfig
}.

Record Props : Type := {
  isOpen : bool;
  snapPoints : list string;
  defaultSnapPoint : string;
  closeOnEscape : bool
}.

Record State : Type := {
  currentSnapPoint : string;
  isDragging : bool;
  startY : float;
  currentY : float;
  isAnimating : bool;
  animationProgress : float;
  targetHeight : Length;
  startHeight : Length;
  dragVelocity : float;
  lastDragTime : float;
  lastDragY : float;
  isMobile : bool;
  isTablet : bool;
  viewportHeight : float;
  viewportWidth : float;
  announcement : string;
  (** the frame callback currently scheduled through [animationRef] *)
  animationRef : option Animation;
  velocityRef : list Sample;
  (** every snap point passed to [announceSnapPointChange], oldest first *)
  settled : list string;
  (** number of calls of [onClose] *)
  closeRequests : nat
}.

(** Functional counterparts of the [useState] setters and ref writes. *)
Definition setCurrentSnapPoint (v : string) (s : State) : State :=
  {| currentSnapPoint := v; isDragging := isDragging s; startY := startY s;
     currentY := currentY s; isAnimating := isAnimating s;
     animationProgress := animationProgress s; targetHeight := targetHeight s;
     startHeight := startHeight s; dragVelocity := dragVelocity s;
     lastDragTime := lastDragTime s; lastDragY := lastDragY s;
     isMobile := isMobile s; isTablet := isTablet s;
     viewportHeight := viewportHeight s; viewportWidth := viewportWidth s;
     announcement := announcement s; animationRef := animationRef s;
     velocityRef := velocityRef s; settled := settled s;
     closeRequests := closeRequests s |}.

Definition setIsDragging (v : bool) (s : State) : State :=
  {| currentSnapPoint := currentSnapPoint s; isDragging := v; startY := startY s;
     currentY := currentY s; isAnimating := isAnimating s;
     animationProgress := animationProgress s; targetHeight := targetHeight s;
     startHeight := startHeight s; dragVelocity := dragVelocity s;
     lastDragTime := lastDragTime s; lastDragY := lastDragY s;
     isMobile := isMobile s; isTablet := isTablet s;
     viewportHeight := viewportHeight s; viewportWidth := viewportWidth s;
     announcement := announcement s; animationRef := animationRef s;
     velocityRef := velocityRef s; settled := settled s;
     closeRequests := closeRequests s |}.

Definition setStartY (v : float) (s : State) : State :=
  {| currentSnapPoint := currentSnapPoint s; isDragging := isDragging s; startY := v;
     currentY := currentY s; isAnimating := isAnimating s;
     animationProgress := animationProgress s; targetHeight := targetHeight s;
     startHeight := startHeight s; dragVelocity := dragVelocity s;
     lastDragTime := lastDragTime s; lastDragY := lastDragY s;
     isMobile := isMobile s; isTablet := isTablet s;
     viewportHeight := viewportHeight s; viewportWidth := viewportWidth s;
     announcement := announcement s; animationRef := animationRef s;
     velocityRef := velocityRef s; settled := settled s;
     closeRequests := closeRequests s |}.

Definition setCurrentY (v : float) (s : State) : State :=
  {| currentSnapPoint := currentSnapPoint s; isDragging := isDragging s; startY := startY s;
     currentY := v; isAnimating := isAnimating s;
     animationProgress := animationProgress s; targetHeight := targetHeight s;
     startHeight := startHeight s; dragVelocity := dragVelocity s;
     lastDragTime := lastDragTime s; lastDragY := lastDragY s;
     isMobile := isMobile s; isTablet := isTablet s;
     viewportHeight := viewportHeight s; viewportWidth := viewportWidth s;
     announcement := announcement s; animationRef := animationRef s;
     velocityRef := velocityRef s; settled := settled s;
     closeRequests := closeRequests s |}.

Definition setIsAnimating (v : bool) (s : State) : State :=
  {| currentSnapPoint := currentSnapPoint s; isDragging := isDragging s; startY := startY s;
     currentY := currentY s; isAnimating := v;
     animationProgress := animationProgress s; targetHeight := targetHeight s;
     startHeight := startHeight s; dragVelocity := dragVelocity s;
     lastDragTime := lastDragTime s; lastDragY := lastDragY s;
     isMobile := isMobile s; isTablet := isTablet s;
     viewportHeight := viewportHeight s; viewportWidth := viewportWidth s;
     announcement := announcement s; animationRef := animationRef s;
     velocityRef := velocityRef s; settled := settled s;
     closeRequests := closeRequests s |}.

Definition setAnimationProgress (v : float) (s : State) : State :=
  {| currentSnapPoint := currentSnapPoint s; isDragging := isDragging s; startY := startY s;
     currentY := currentY s; isAnimating := isAnimating s;
     animationProgress := v; targetHeight := targetHeight s;
     startHeight := startHeight s; dragVelocity := dragVelocity s;
     lastDragTime := lastDragTime s; lastDragY := lastDragY s;
     isMobile := isMobile s; isTablet := isTablet s;
     viewportHeight := viewportHeight s; viewportWidth := viewportWidth s;
     announcement := announcement s; animationRef := animationRef s;
     velocityRef := velocityRef s; settled := settled s;
     closeRequests := closeRequests s |}.

Definition setTargetHeight (v : Length) (s : State) : State :=
  {| currentSnapPoint := currentSnapPoint s; isDragging := isDragging s; startY := startY s;
     currentY := currentY s; isAnimating := isAnimating s;
     animationProgress := animationProgress s; targetHeight := v;
     startHeight := startHeight s; dragVelocity := dragVelocity s;
     lastDragTime := lastDragTime s; lastDragY := lastDragY s;
     isMobile := isMobile s; isTablet := isTablet s;
     viewportHeight := viewportHeight s; viewportWidth := viewportWidth s;
     announcement := announcement s; animationRef := animationRef s;
     velocityRef := velocityRef s; settled := settled s;
     closeRequests := closeRequests s |}.

Definition setStartHeight (v : Length) (s : State) : State :=
  {| currentSnapPoint := currentSnapPoint s; isDragging := isDragging s; startY := startY s;
     currentY := currentY s; isAnimating := isAnimating s;
     animationProgress := animationProgress s; targetHeight := targetHeight s;
     startHeight := v; dragVelocity := dragVelocity s;
     lastDragTime := lastDragTime s; lastDragY := lastDragY s;
     isMobile := isMobile s; isTablet := isTablet s;
     viewportHeight := viewportHeight s; viewportWidth := viewportWidth s;
     announcement := announcement s; animationRef := animationRef s;
     velocityRef := velocityRef s; settled := settled s;
     closeRequests := closeRequests s |}.

Definition setDragVelocity (v : float) (s : State) : State :=
  {| currentSnapPoint := currentSnapPoint s; isDragging := isDragging s; startY := startY s;
     currentY := currentY s; isAnimating := isAnimating s;
     animationProgress := animationProgress s; targetHeight := targetHeight s;
     startHeight := startHeight s; dragVelocity := v;
     lastDragTime := lastDragTime s; lastDragY := lastDragY s;
     isMobile := isMobile s; isTablet := isTablet s;
     viewportHeight := viewportHeight s; viewportWidth := viewportWidth s;
     announcement := announcement s; animationRef := animationRef s;
     velocityRef := velocityRef s; settled := settled s;
     closeRequests := closeRequests s |}.

Definition setLastDragTime (v : float) (s : State) : State :=
  {| currentSnapPoint := currentSnapPoint s; isDragging := isDragging s; startY := startY s;
     currentY := currentY s; isAnimating := isAnimating s;
     animationProgress := animationProgress s; targetHeight := targetHeight s;
     startHeight := startHeight s; dragVelocity := dragVelocity s;
     lastDragTime := v; lastDragY := lastDragY s;
     isMobile := isMobile s; isTablet := isTablet s;
     viewportHeight := viewportHeight s; viewportWidth := viewportWidth s;
     announcement := announcement s; animationRef := animationRef s;
     velocityRef := velocityRef s; settled := settled s;
     closeRequests := closeRequests s |}.

Definition setLastDragY (v : float) (s : State) : State :=
  {| currentSnapPoint := currentSnapPoint s; isDragging := isDragging s; startY := startY s;
     currentY := currentY s; isAnimating := isAnimating s;
     animationProgress := animationProgress s; targetHeight := targetHeight s;
     startHeight := startHeight s; dragVelocity := dragVelocity s;
     lastDragTime := lastDragTime s; lastDragY := v;
     isMobile := isMobile s; isTablet := isTablet s;
     viewportHeight := viewportHeight s; viewportWidth := viewportWidth s;
     announcement := announcement s; animationRef := animationRef s;
     velocityRef := velocityRef s; settled := settled s;
     closeRequests := closeRequests s |}.

(** [handleResize] writes the four viewport cells together. *)
Definition setViewport (width hgt : float) (mobile tablet : bool) (s : State) : State :=
  {| currentSnapPoint := currentSnapPoint s; isDragging := isDragging s; startY := startY s;
     currentY := currentY s; isAnimating := isAnimating s;
     animationProgress := animationProgress s; targetHeight := targetHeight s;
     startHeight := startHeight s; dragVelocity := dragVelocity s;
     lastDragTime := lastDragTime s; lastDragY := lastDragY s;
     isMobile := mobile; isTablet := tablet;
     viewportHeight := hgt; viewportWidth := width;
     announcement := announcement s; animationRef := animationRef s;
     velocityRef := velocityRef s; settled := settled s;
     closeRequests := closeRequests s |}.

Definition setAnimationRef (v : option Animation) (s : State) : State :=
  {| currentSnapPoint := currentSnapPoint s; isDragging := isDragging s; startY := startY s;
     currentY := currentY s; isAnimating := isAnimating s;
     animationProgress := animationProgress s; targetHeight := targetHeight s;
     startHeight := startHeight s; dragVelocity := dragVelocity s;
     lastDragTime := lastDragTime s; lastDragY := lastDragY s;
     isMobile := isMobile s; isTablet := isTablet s;
     viewportHeight := viewportHeight s; viewportWidth := viewportWidth s;
     announcement := announcement s; animationRef := v;
     velocityRef := velocityRef s; settled := settled s;
     closeRequests := closeRequests s |}.

Definition setVelocityRef (v : list Sample) (s : State) : State :=
  {| currentSnapPoint := currentSnapPoint s; isDragging := isDragging s; startY := startY s;
     currentY := currentY s; isAnimating := isAnimating s;
     animationProgress := animationProgress s; targetHeight := targetHeight s;
     startHeight := startHeight s; dragVelocity := dragVelocity s;
     lastDragTime := lastDragTime s; lastDragY := lastDragY s;
     isMobile := isMobile s; isTablet := isTablet s;
     viewportHeight := viewportHeight s; viewportWidth := viewportWidth s;
     announcement := announcement s; animationRef := animationRef s;
     velocityRef := v; settled := settled s;
     closeRequests := closeRequests s |}.

(** [setAnnouncement(text)] as called by [announceSnapPointChange(snapPoint)]. *)
Definition recordAnnouncement (snapPoint text : string) (s : State) : State :=
  {| currentSnapPoint := currentSnapPoint s; isDragging := isDragging s; startY := startY s;
     currentY := currentY s; isAnimating := isAnimating s;
     animationProgress := animationProgress s; targetHeight := targetHeight s;
     startHeight := startHeight s; dragVelocity := dragVelocity s;
     lastDragTime := lastDragTime s; lastDragY := lastDragY s;
     isMobile := isMobile s; isTablet := isTablet s;
     viewportHeight := viewportHeight s; viewportWidth := viewportWidth s;
     announcement := text; animationRef := animationRef s;
     velocityRef := velocityRef s; settled := settled s ++ [snapPoint];
     closeRequests := closeRequests s |}.

(** [onClose()]. *)
Definition onClose (s : State) : State :=
  {| currentSnapPoint := currentSnapPoint s; isDragging := isDragging s; startY := startY s;
     currentY := currentY s; isAnimating := isAnimating s;
     animationProgress := animationProgress s; targetHeight := targetHeight s;
     startHeight := startHeight s; dragVelocity := dragVelocity s;
     lastDragTime := lastDragTime s; lastDragY := lastDragY s;
     isMobile := isMobile s; isTablet := isTablet s;
     viewportHeight := viewportHeight s; viewportWidth := viewportWidth s;
     announcement := announcement s; animationRef := animationRef s;
     velocityRef := velocityRef s; settled := settled s;
     closeRequests := S (closeRequests s) |}.

(** *** Viewport and responsive configuration *)

Definition BREAKPOINTS_mobile : float := 768.
Definition BREAKPOINTS_tablet : float := 1024.
Definition BREAKPOINTS_desktop : float := 1200.

(** [handleResize], with [window.innerWidth] and [window.innerHeight] as
    arguments. *)
Definition handleResize (width hgt : float) (s : State) : State :=
  setViewport width hgt
    (width <? BREAKPOINTS_mobile)
    ((BREAKPOINTS_mobile <=? width) && (width <? BREAKPOINTS_tablet))
    s.

(** [obj[key].height = h] on an object literal held as an association
    list in the order of its keys. *)
Definition withHeight (h : Length) (c : SnapConfig) : SnapConfig :=
  {| height := h;
     contentVisible := contentVisible c;
     showHandle := showHandle c;
     showSnapButtons := showSnapButtons c;
     threshold := threshold c;
     maxWidth := maxWidth c |}.

Fixpoint assignHeight (obj : list (string * SnapConfig)) (key : string) (h : Length)
  : list (string * SnapConfig) :=
  match obj with
  | [] => []
  | (k, v) :: r =>
      if String.eqb k key then (k, withHeight h v) :: r
      else (k, v) :: assignHeight r key h
  end.

(** [getSnapPointConfig()]. *)
Definition getSnapPointConfig (s : State) : list (string * SnapConfig) :=
  let baseConfig :=
    [ ("closed",
        {| height := if isMobile s then px 60 else px 80;
           contentVisible := false;
           showHandle := true;
           showSnapButtons := false;
           threshold := 0.2;
           maxWidth := if isMobile s then pct 100 else px 600 |});
      ("half-open",
        {| height := if isMobile s then pct 60 else pct 50;
           contentVisible := true;
           showHandle := true;
           showSnapButtons := negb (isMobile s);
           threshold := 0.5;
           maxWidth := if isMobile s then pct 100 else px 600 |});
      ("fully-open",
        {| height := if isMobile s then pct 95 else pct 90;
           contentVisible := true;
           showHandle := true;
           showSnapButtons := negb (isMobile s);
           threshold := 0.8;
           maxWidth := if isMobile s then pct 100 else px 600 |}) ] in
  if isTablet s
  then assignHeight (assignHeight baseConfig "half-open" (pct 55)) "fully-open" (pct 92)
  else baseConfig.

(** [obj[key]] on an object literal, for the keys the literal itself
    lists: [None] for [undefined].  A plain object also inherits the
    properties of [Object.prototype], which this lookup does not see: it
    is the code's [obj[key]] at every key outside [objectPrototypeKeys]. *)
Fixpoint property {A : Type} (obj : list (string * A)) (key : string) : option A :=
  match obj with
  | [] => None
  | (k, v) :: r => if String.eqb k key then Some v else property r key
  end.

Definition snapPointConfig (s : State) : list (string * SnapConfig) :=
  getSnapPointConfig s.

Definition currentConfig (s : State) : option SnapConfig :=
  property (snapPointConfig s) (currentSnapPoint s).

Definition getSpringConfig (s : State) : SpringConfig :=
  if isMobile s
  then {| tension := 0.4; friction := 0.7; mass := 0.8 |}
  else {| tension := 0.3; friction := 0.8; mass := 1.0 |}.

(** *** Spring easing *)

Definition omegaOf (c : SpringConfig) : float := PrimFloat.sqrt (tension c / mass c).

Definition zetaOf (c : SpringConfig) : float :=
  friction c / (2 * PrimFloat.sqrt (tension c * mass c)).

Definition springEase (M : JSMath) (c : SpringConfig) (t : float) : float :=
  let omega := omegaOf c in
  let zeta := zetaOf c in
  if zeta <? 1 then
    let omegaD := omega * PrimFloat.sqrt (1 - zeta * zeta) in
    1 - Math_exp M ((- zeta) * omega * t) *
        (Math_cos M (omegaD * t) + (zeta * omega / omegaD) * Math_sin M (omegaD * t))
  else
    let omegaN := omega * PrimFloat.sqrt (zeta * zeta - 1) in
    1 - Math_exp M ((- zeta) * omega * t) *
        (Math_cosh M (omegaN * t) + (zeta * omega / omegaN) * Math_sinh M (omegaN * t)).

(** *** Velocity from recent drag positions *)

(** [calculateVelocity(currentY, currentTime)] on the window held by
    [velocityRef.current]: the window after the call and the value
    returned. *)
Definition calculateVelocity (window : list Sample) (currentY currentTime : float)
  : list Sample * float :=
  let pushed := window ++ [ {| y := currentY; time := currentTime |} ] in
  let kept := if (5 <? List.length pushed)%nat then tl pushed else pushed in
  let velocity :=
    if (2 <=? List.length kept)%nat then
      match nth_error kept 0, nth_error kept (List.length kept - 1) with
      | Some first, Some last =>
          let timeDiff := time last - time first in
          let distance := y last - y first in
          if 0 <? timeDiff then distance / timeDiff else 0
      | _, _ => 0
      end
    else 0 in
  (kept, velocity).

(** *** Target snap point from position and velocity *)

Definition snapPointOrder : list string := ["closed"; "half-open"; "fully-open"].

(** The conversion of [currentHeight] at the head of
    [determineTargetSnapPoint]. *)
Definition heightPercent (s : State) (currentHeight : Length) : float :=
  match unit currentHeight with
  | Percent => num currentHeight / 100
  | Pixel => num currentHeight / viewportHeight s
  end.

Definition velocityThreshold (s : State) : float :=
  if isMobile s then 0.3 else 0.5.

Definition snapThresholds (s : State) : list float :=
  if isMobile s then [0.1; 0.3; 0.7] else [0.1; 0.35; 0.75].

(** The [for] loop over [snapThresholds]: the first index [i], counted
    from [i0], with [heightPercent <= snapThresholds[i]]. *)
Fixpoint firstThreshold (hp : float) (thresholds : list float) (i0 : Z) : option Z :=
  match thresholds with
  | [] => None
  | t :: r => if hp <=? t then Some i0 else firstThreshold hp r (i0 + 1)%Z
  end.

Definition determineTargetSnapPoint (s : State) (currentHeight : Length) (velocity : float)
  : option string :=
  let currentIndex := indexOf snapPointOrder (currentSnapPoint s) in
  let hp := heightPercent s currentHeight in
  if velocityThreshold s <? PrimFloat.abs velocity then
    if velocity <? 0 then
      if (currentIndex <? arrayLength snapPointOrder - 1)%Z
      then arrayGet snapPointOrder (currentIndex + 1)%Z
      else Some (currentSnapPoint s)
    else
      if (0 <? currentIndex)%Z
      then arrayGet snapPointOrder (currentIndex - 1)%Z
      else Some "closed"
  else
    match firstThreshold hp (snapThresholds s) 0%Z with
    | Some i => arrayGet snapPointOrder i
    | None => arrayGet snapPointOrder (arrayLength snapPointOrder - 1)%Z
    end.

(** *** Transitions *)

(** [animateToSnapPoint(targetSnapPoint)] called when [performance.now()]
    is [now].  [None] is the [TypeError] of reading [.height] of an
    [undefined] configuration. *)
Definition animateToSnapPoint (s : State) (now : float) (target : string) : option State :=
  if isAnimating s then Some s
  else
    match property (snapPointConfig s) target,
          property (snapPointConfig s) (currentSnapPoint s) with
    | Some targetConfig, Some currentConfig' =>
        Some (setAnimationRef
                (Some {| targetSnapPoint := target;
                         startTime := now;
                         duration := if isMobile s then 500 else 600;
                         spring := getSpringConfig s |})
             (setAnimationProgress 0
             (setIsAnimating true
             (setTargetHeight (height targetConfig)
             (setStartHeight (height currentConfig') s)))))
    | _, _ => None
    end.

(** [animateToSnapPoint(v)] for a value [v] that is a string or
    [undefined]. *)
Definition animateToValue (s : State) (now : float) (v : option string) : option State :=
  match v with
  | Some target => animateToSnapPoint s now target
  | None => if isAnimating s then Some s else None
  end.

Definition snapPointLabels : list (string * string) :=
  [ ("closed", "Bottom sheet minimized");
    ("half-open", "Bottom sheet half open");
    ("fully-open", "Bottom sheet fully open") ].

Definition announceSnapPointChange (snapPoint : string) (s : State) : State :=
  let text :=
    match property snapPointLabels snapPoint with
    | Some label => label
    | None => String.append "Bottom sheet " snapPoint
    end in
  recordAnnouncement snapPoint text s.

(** The frame callback [animate(currentTime)] of the transition [a]. *)
Definition linearProgress (a : Animation) (currentTime : float) : float :=
  let elapsed := currentTime - startTime a in
  Math_min (elapsed / duration a) 1.

Definition animate (M : JSMath) (a : Animation) (currentTime : float) (s : State) : State :=
  let progress := linearProgress a currentTime in
  let springProgress := springEase M (spring a) progress in
  if progress <? 1 then
    setAnimationRef (Some a) (setAnimationProgress springProgress s)
  else
    announceSnapPointChange (targetSnapPoint a)
      (setAnimationRef None
      (setVelocityRef []
      (setDragVelocity 0
      (setAnimationProgress 0
      (setCurrentSnapPoint (targetSnapPoint a)
      (setIsAnimating false
      (setAnimationProgress springProgress s))))))).

(** The browser runs the scheduled frame callback, if there is one. *)
Definition frame (M : JSMath) (currentTime : float) (s : State) : State :=
  match animationRef s with
  | Some a => animate M a currentTime s
  | None => s
  end.

(** The cleanup effect: [cancelAnimationFrame(animationRef.current)]. *)
Definition unmount (s : State) : State := setAnimationRef None s.

(** [getCurrentHeight()]; [None] is the [TypeError] of
    [currentConfig.height] when [currentConfig] is [undefined]. *)
Definition getCurrentHeight (s : State) : option Length :=
  if negb (isAnimating s) then option_map height (currentConfig s)
  else
    let startValue := num (startHeight s) in
    let targetValue := num (targetHeight s) in
    match unit (startHeight s), unit (targetHeight s) with
    | Percent, Percent =>
        Some (pct (startValue + (targetValue - startValue) * animationProgress s))
    | Pixel, Pixel =>
        Some (px (startValue + (targetValue - startValue) * animationProgress s))
    | _, _ => Some (targetHeight s)
    end.

(** *** Keyboard, pointer and button handlers *)

(** The toggle target shared by [handleToggle] and the drag handle's
    [onKeyDown]. *)
Definition nextSnapPoint (s : State) : string :=
  if String.eqb (currentSnapPoint s) "half-open" then "fully-open" else "half-open".

(** [handleKeyDown(e)] for [e.key = key]; the [Tab] case only moves focus. *)
Definition handleKeyDown (p : Props) (s : State) (key : string) (now : float)
  : option State :=
  if negb (isOpen p) then Some s
  else if String.eqb key "Escape" then
    if closeOnEscape p then
      if String.eqb (currentSnapPoint s) "closed" then Some (onClose s)
      else animateToSnapPoint s now "closed"
    else Some s
  else if String.eqb key "ArrowUp" then
    let currentIndex := indexOf snapPointOrder (currentSnapPoint s) in
    if (currentIndex <? arrayLength snapPointOrder - 1)%Z
    then animateToValue s now (arrayGet snapPointOrder (currentIndex + 1)%Z)
    else Some s
  else if String.eqb key "ArrowDown" then
    let currentIndexDown := indexOf snapPointOrder (currentSnapPoint s) in
    if (0 <? currentIndexDown)%Z
    then animateToValue s now (arrayGet snapPointOrder (currentIndexDown - 1)%Z)
    else if (currentIndexDown =? 0)%Z then Some (onClose s)
    else Some s
  else if String.eqb key "Home" then animateToSnapPoint s now "fully-open"
  else if String.eqb key "End" then animateToSnapPoint s now "closed"
  else Some s.

(** The [onKeyDown] of the drag handle. *)
Definition handleHandleKeyDown (s : State) (key : string) (now : float) : option State :=
  if String.eqb key "Enter" || String.eqb key " "
  then animateToSnapPoint s now (nextSnapPoint s)
  else Some s.

(** [handleTouchStart(e)] with [touch.clientY] and [performance.now()]. *)
Definition handleTouchStart (s : State) (clientY now : float) : State :=
  if isAnimating s then s
  else
    setVelocityRef []
      (setDragVelocity 0
      (setLastDragTime now
      (setLastDragY clientY
      (setCurrentY clientY
      (setStartY clientY
      (setIsDragging true s)))))).

Definition handleTouchMove (s : State) (clientY now : float) : State :=
  if negb (isDragging s) || isAnimating s then s
  else
    let '(window, velocity) := calculateVelocity (velocityRef s) clientY now in
    setLastDragTime now
      (setLastDragY clientY
      (setDragVelocity velocity
      (setVelocityRef window
      (setCurrentY clientY s)))).

(** [handleTouchEnd()].  The state writes of [animateToSnapPoint] follow
    [setIsDragging(false)]; none of its reads is a cell written here. *)
Definition handleTouchEnd (s : State) (now : float) : option State :=
  if negb (isDragging s) || isAnimating s then Some s
  else
    let s1 := setIsDragging false s in
    match getCurrentHeight s with
    | None => None
    | Some currentHeight =>
        let target := determineTargetSnapPoint s currentHeight (dragVelocity s) in
        match target with
        | Some t =>
            if String.eqb t "closed" && String.eqb (currentSnapPoint s) "closed"
            then Some (onClose s1)
            else if negb (String.eqb t (currentSnapPoint s))
            then animateToSnapPoint s1 now t
            else Some s1
        | None => animateToValue s1 now None
        end
    end.

Definition handleSnapPointClick (s : State) (snapPoint : string) (now : float)
  : option State :=
  if negb (String.eqb snapPoint (currentSnapPoint s)) && negb (isAnimating s)
  then animateToSnapPoint s now snapPoint
  else Some s.

(** [handleOverlayClick(e)] for a click on the overlay itself. *)
Definition handleOverlayClick (s : State) (now : float) : option State :=
  if String.eqb (currentSnapPoint s) "closed" then Some (onClose s)
  else animateToSnapPoint s now "closed".

Definition handleMinimize (s : State) (now : float) : option State :=
  if negb (isAnimating s) then animateToSnapPoint s now "closed" else Some s.

Definition handleMaximize (s : State) (now : float) : option State :=
  if negb (isAnimating s) then animateToSnapPoint s now "fully-open" else Some s.

Definition handleToggle (s : State) (now : float) : option State :=
  if negb (isAnimating s) then animateToSnapPoint s now (nextSnapPoint s) else Some s.

(** *** The component as a transition system *)

(** The first render: the [useState] defaults, then the initial
    [handleResize()] of the viewport effect. *)
Definition mount (p : Props) (innerWidth innerHeight : float) : State :=
  handleResize innerWidth innerHeight
    {| currentSnapPoint := defaultSnapPoint p;
       isDragging := false;
       startY := 0;
       currentY := 0;
       isAnimating := false;
       animationProgress := 0;
       targetHeight := pct 50;
       startHeight := pct 50;
       dragVelocity := 0;
       lastDragTime := 0;
       lastDragY := 0;
       isMobile := false;
       isTablet := false;
       viewportHeight := innerHeight;
       viewportWidth := innerWidth;
       announcement := "";
       animationRef := None;
       velocityRef := [];
       settled := [];
       closeRequests := 0 |}.

(** What can happen to a mounted component.  Events that call
    [performance.now()] carry its value. *)
Inductive Event : Type :=
| Resize (innerWidth innerHeight : float)
| TouchStart (clientY now : float)
| TouchMove (clientY now : float)
| TouchEnd (now : float)
| KeyDown (key : string) (now : float)
| HandleKeyDown (key : string) (now : float)
| SnapPointClick (snapPoint : string) (now : float)
| OverlayClick (now : float)
| Minimize (now : float)
| Maximize (now : float)
| Toggle (now : float)
| Frame (currentTime : float)
| Unmount.

Definition step (M : JSMath) (p : Props) (e : Event) (s : State) : option State :=
  match e with
  | Resize w h => Some (handleResize w h s)
  | TouchStart cy now => Some (handleTouchStart s cy now)
  | TouchMove cy now => Some (handleTouchMove s cy now)
  | TouchEnd now => handleTouchEnd s now
  | KeyDown key now => handleKeyDown p s key now
  | HandleKeyDown key now => handleHandleKeyDown s key now
  | SnapPointClick sp now => handleSnapPointClick s sp now
  | OverlayClick now => handleOverlayClick s now
  | Minimize now => handleMinimize s now
  | Maximize now => handleMaximize s now
  | Toggle now => handleToggle s now
  | Frame t => Some (frame M t s)
  | Unmount => Some (unmount s)
  end.

Fixpoint run (M : JSMath) (p : Props) (events : list Event) (s : State) : option State :=
  match events with
  | [] => Some s
  | e :: rest =>
      match step M p e s with
      | Some s' => run M p rest s'
      | None => None
      end
  end.

(** States the component can be in after some events. *)
Definition reachable (M : JSMath) (p : Props) (w h : float) (s : State) : Prop :=
  exists events, run M p events (mount p w h) = Some s.

(** The two states of the animator. *)
Definition Idle (s : State) : Prop := isAnimating s = false.
Definition Running (s : State) : Prop := isAnimating s = true.

(** First-order stand-ins for the [Math] functions, exact at zero as
    ECMAScript requires.  They serve to run the model on examples; every
    statement below that mentions a [JSMath] holds for all of them. *)
Definition linearMath : JSMath :=
  {| Math_exp := fun x => 1 + x;
     Math_cos := fun _ => 1;
     Math_sin := fun x => x;
     Math_cosh := fun _ => 1;
     Math_sinh := fun x => x |}.

(** The demo application's props. *)
Definition demoProps : Props :=
  {| isOpen := true;
     snapPoints := ["closed"; "half-open"; "fully-open"];
     defaultSnapPoint := "half-open";
     closeOnEscape := true |}.

(** *** The specification's wording, for comparison with the code *)

(** The last [n] elements of a list. *)
Definition lastN {A : Type} (n : nat) (l : list A) : list A :=
  skipn (List.length l - n) l.

(** The window left in [velocityRef.current] after [calculateVelocity] has
    been called once per sample, in order. *)
Definition observeAll (window : list Sample) (samples : list Sample) : list Sample :=
  fold_left (fun w smp => fst (calculateVelocity w (y smp) (time smp))) samples window.

(** Velocity of a window in the specification's words: 0 with fewer than
    two samples or without strictly positive elapsed time, else the
    position difference over the time difference of newest and oldest. *)
Definition windowVelocity (window : list Sample) : float :=
  match window with
  | oldest :: _ :: _ =>
      let newest := List.last window oldest in
      if 0 <? time newest - time oldest
      then (y newest - y oldest) / (time newest - time oldest)
      else 0
  | _ => 0
  end.

(** Position rule in the specification's words: walk the snap points and
    the ascending thresholds together and return the first snap point
    whose threshold the fraction does not exceed. *)
Fixpoint firstWithin (order : list string) (thresholds : list float) (fraction : float)
  : option string :=
  match order, thresholds with
  | snapPoint :: order', t :: thresholds' =>
      if fraction <=? t then Some snapPoint
      else firstWithin order' thresholds' fraction
  | _, _ => None
  end.

Definition selectByPosition (order : list string) (thresholds : list float)
  (fraction : float) : option string :=
  match firstWithin order thresholds fraction with
  | Some snapPoint => Some snapPoint
  | None => nth_error order (List.length order - 1)
  end.

(** One step towards the end, respectively the start, of the sequence
    from index [i], clamped at the ends. *)
Definition nextIndex (order : list string) (i : nat) : nat :=
  Nat.min (i + 1) (List.length order - 1).

Definition previousIndex (i : nat) : nat := Nat.pred i.

(** A caller that wants only two snap points. *)
Definition twoPointProps : Props :=
  {| isOpen := true;
     snapPoints := ["closed"; "fully-open"];
     defaultSnapPoint := "closed";
     closeOnEscape := true |}.

(** An event that neither completes nor cancels the transition whose
    frame callback is [a]. *)
Definition keepsRunning (a : Animation) (e : Event) : bool :=
  match e with
  | Frame t => linearProgress a t <? 1
  | Unmount => false
  | _ => true
  end.

(** The discrete commands: keyboard and buttons. *)
Definition isCommand (e : Event) : bool :=
  match e with
  | KeyDown _ _ | HandleKeyDown _ _ | SnapPointClick _ _ | OverlayClick _
  | Minimize _ | Maximize _ | Toggle _ => true
  | _ => false
  end.

(** The interpolation of [getCurrentHeight] between two lengths. *)
Definition interpolate (startLength targetLength : Length) (progress : float) : Length :=
  match unit startLength, unit targetLength with
  | Percent, Percent =>
      pct (num startLength + (num targetLength - num startLength) * progress)
  | Pixel, Pixel =>
      px (num startLength + (num targetLength - num startLength) * progress)
  | _, _ => targetLength
  end.

(** The displayed extent as the specification describes it: while a
    transition runs, the interpolation between the extents that the
    latest configuration table gives to its start and target snap
    points. *)
Definition liveExtent (s : State) : option Length :=
  match animationRef s with
  | Some a =>
      match property (snapPointConfig s) (currentSnapPoint s),
            property (snapPointConfig s) (targetSnapPoint a) with
      | Some fromConfig, Some toConfig =>
          Some (interpolate (height fromConfig) (height toConfig) (animationProgress s))
      | _, _ => None
      end
  | None => option_map height (currentConfig s)
  end.

(** The sheet resting fully open on a desktop viewport. *)
Definition fullyOpenProps : Props :=
  {| isOpen := true;
     snapPoints := ["closed"; "half-open"; "fully-open"];
     defaultSnapPoint := "fully-open";
     closeOnEscape := true |}.

(** *** Concrete states, for examples *)

Definition afterEvents (M : JSMath) (p : Props) (events : list Event) (s : State) : State :=
  match run M p events s with
  | Some s' => s'
  | None => s
  end.

(** The demo sheet at rest in [half-open] on a 1280 x 800 viewport. *)
Definition restingState : State :=
  Eval vm_compute in mount demoProps 1280 800.

(** After a pointer-down at 400 and one pointer-move to 380. *)
Definition draggingState : State :=
  Eval vm_compute in
    afterEvents linearMath demoProps [TouchStart 400 0; TouchMove 380 10] restingState.

(** After a pointer-down. *)
Definition pressedState : State :=
  Eval vm_compute in
    afterEvents linearMath demoProps [TouchStart 400 0] restingState.

(** After a pointer-down followed by the ArrowUp key. *)
Definition pressedRunningState : State :=
  Eval vm_compute in
    afterEvents linearMath demoProps [TouchStart 400 0; KeyDown "ArrowUp" 5] restingState.

(** After the ArrowUp key at rest: the transition to [fully-open] runs. *)
Definition runningState : State :=
  Eval vm_compute in
    afterEvents linearMath demoProps [KeyDown "ArrowUp" 0] restingState.

(** The frame callback of [runningState]. *)
Definition runningAnimation : Animation :=
  {| targetSnapPoint := "fully-open";
     startTime := 0;
     duration := 600;
     spring := {| tension := 0.3; friction := 0.8; mass := 1.0 |} |}.

(** The first branch of [springEase]. *)
Definition springEaseUnderdamped (M : JSMath) (c : SpringConfig) (t : float) : float :=
  let omega := omegaOf c in
  let zeta := zetaOf c in
  let omegaD := omega * PrimFloat.sqrt (1 - zeta * zeta) in
  1 - Math_exp M ((- zeta) * omega * t) *
      (Math_cos M (omegaD * t) + (zeta * omega / omegaD) * Math_sin M (omegaD * t)).


(** The three quantities [springEase] computes from the parameter set
    before it looks at [t]: the factor of [t] under the exponential, the
    factor of [t] under the trigonometric or hyperbolic functions
    ([omegaD] or [omegaN]), and the coefficient of the sine. *)
Definition decayRate (c : SpringConfig) : float := (- zetaOf c) * omegaOf c.

Definition frequency (c : SpringConfig) : float :=
  if zetaOf c <? 1
  then omegaOf c * PrimFloat.sqrt (1 - zetaOf c * zetaOf c)
  else omegaOf c * PrimFloat.sqrt (zetaOf c * zetaOf c - 1).

Definition coefficient (c : SpringConfig) : float :=
  zetaOf c * omegaOf c / frequency c.


(** The three quantities are finite numbers: none is an infinity or NaN. *)
Definition regular (c : SpringConfig) : bool :=
  is_finite (decayRate c) && is_finite (frequency c) && is_finite (coefficient c).



(** A critically damped parameter set: [zeta] is exactly 1. *)
Definition criticalConfig : SpringConfig :=
  {| tension := 1; friction := 2; mass := 1 |}.


(** An overdamped parameter set: [zeta] is 2. *)
Definition overdampedConfig : SpringConfig :=
  {| tension := 1; friction := 4; mass := 1 |}.

(** The property names a plain object inherits from [Object.prototype]:
    at these, [obj[key]] is the inherited value and not [undefined]. *)
Definition objectPrototypeKeys : list string :=
  ["constructor"; "hasOwnProperty"; "isPrototypeOf"; "propertyIsEnumerable";
   "toLocaleString"; "toString"; "valueOf"; "__proto__";
   "__defineGetter__"; "__defineSetter__"; "__lookupGetter__"; "__lookupSetter__"].

(** *** Further notions used to state properties of the handlers *)

(** The events the rendered component can produce: a snap-point button
    exists only for the three snap points of the fixed sequence. *)
Definition wellFormed (e : Event) : bool :=
  match e with
  | SnapPointClick snapPoint _ => existsb (String.eqb snapPoint) snapPointOrder
  | _ => true
  end.

(** Events other than the four commands that call [animateToSnapPoint]
    with a fixed target and no test on the current snap point: the Home
    and End keys and the Minimize and Maximize buttons. *)
Definition guardedRequest (e : Event) : bool :=
  match e with
  | KeyDown key _ => negb (String.eqb key "Home" || String.eqb key "End")
  | Minimize _ | Maximize _ => false
  | _ => true
  end.

(** The frame callback that [animateToSnapPoint(target)] schedules when it
    is called in state [s] at time [now]. *)
Definition requestedAnimation (s : State) (now : float) (target : string) : Animation :=
  {| targetSnapPoint := target;
     startTime := now;
     duration := if isMobile s then 500 else 600;
     spring := getSpringConfig s |}.

(** The frame at time [t] takes the [else] branch of [animate]. *)
Definition completes (a : Animation) (t : float) : bool :=
  negb (linearProgress a t <? 1).

(** What the handlers keep true of the snap points: the current snap
    point and the target of a scheduled frame callback belong to the
    fixed sequence. *)
Definition membersInv (s : State) : Prop :=
  In (currentSnapPoint s) snapPointOrder
  /\ forall a, animationRef s = Some a -> In (targetSnapPoint a) snapPointOrder.

(** What the handlers keep true of the animator and of the velocity
    estimator: a frame callback is scheduled only while animating, the
    window holds at most five samples, and [dragVelocity] is the velocity
    of the window. *)
Definition sessionInv (s : State) : Prop :=
  (forall a, animationRef s = Some a -> isAnimating s = true)
  /\ (List.length (velocityRef s) <= 5)%nat
  /\ dragVelocity s = windowVelocity (velocityRef s).

(** After the End key at rest: the transition to [closed] runs. *)
Definition closingState : State :=
  Eval vm_compute in
    afterEvents linearMath demoProps [KeyDown "End" 0] restingState.

End Sheet.

(** ** The easing curve over the real numbers *)

(** The formula of [springEase] in exact arithmetic: the operations of
    the code read in [R], with no rounding, overflow or underflow.  This
    is the formula the code evaluates, not the code: what the code
    returns is [Sheet.springEase] on binary64 numbers.  A division by
    zero and the square root of a negative number have no real value: the
    result is then [None]. *)
Module RealSpring.

Local Open Scope R_scope.

Record SpringConfig : Type := {
  tension : R;
  friction : R;
  mass : R
}.

Definition divide (x y : R) : option R :=
  if Req_dec_T y 0 then None else Some (x / y).

Definition root (x : R) : option R :=
  if Rle_dec 0 x then Some (sqrt x) else None.

Definition bind {A B : Type} (o : option A) (f : A -> option B) : option B :=
  match o with
  | Some a => f a
  | None => None
  end.

Notation "x <- e ;; k" := (bind e (fun x => k))
  (at level 61, e at next level, right associativity).

Definition omegaOf (c : SpringConfig) : option R :=
  q <- divide (tension c) (mass c) ;; root q.

Definition zetaOf (c : SpringConfig) : option R :=
  r <- root (tension c * mass c) ;; divide (friction c) (2 * r).

Definition springEase (c : SpringConfig) (t : R) : option R :=
  omega <- omegaOf c ;;
  zeta <- zetaOf c ;;
  if Rlt_dec zeta 1 then
    r <- root (1 - zeta * zeta) ;;
    let omegaD := omega * r in
    k <- divide (zeta * omega) omegaD ;;
    Some (1 - exp (- zeta * omega * t) * (cos (omegaD * t) + k * sin (omegaD * t)))
  else
    r <- root (zeta * zeta - 1) ;;
    let omegaN := omega * r in
    k <- divide (zeta * omega) omegaN ;;
    Some (1 - exp (- zeta * omega * t) * (cosh (omegaN * t) + k * sinh (omegaN * t))).

(** The two parameter sets of [getSpringConfig]. *)
Definition getSpringConfig (isMobile : bool) : SpringConfig :=
  if isMobile
  then {| tension := 0.4; friction := 0.7; mass := 0.8 |}
  else {| tension := 0.3; friction := 0.8; mass := 1.0 |}.

(** *** The step response as the specification writes it *)

Definition omega (c : SpringConfig) : R := sqrt (tension c / mass c).

Definition zeta (c : SpringConfig) : R :=
  friction c / (2 * sqrt (tension c * mass c)).

Definition easeUnderdamped (c : SpringConfig) (t : R) : R :=
  let omegaD := omega c * sqrt (1 - zeta c * zeta c) in
  1 - exp (- (zeta c * omega c * t)) *
      (cos (omegaD * t) + (zeta c * omega c / omegaD) * sin (omegaD * t)).

Definition easeOverdamped (c : SpringConfig) (t : R) : R :=
  let omegaN := omega c * sqrt (zeta c * zeta c - 1) in
  1 - exp (- (zeta c * omega c * t)) *
      (cosh (omegaN * t) + (zeta c * omega c / omegaN) * sinh (omegaN * t)).

(** [f t] approaches [l] as [t] grows. *)
Definition approaches (f : R -> R) (l : R) : Prop :=
  forall eps : R, 0 < eps -> exists T : R, forall t : R, T < t -> Rabs (f t - l) < eps.

Definition valid (c : SpringConfig) : Prop :=
  0 < tension c /\ 0 < friction c /\ 0 < mass c.

(** A critically damped and an overdamped parameter set. *)
Definition criticalConfig : SpringConfig :=
  {| tension := 1; friction := 2; mass := 1 |}.

Definition overdampedConfig : SpringConfig :=
  {| tension := 1; friction := 4; mass := 1 |}.

End RealSpring.

(** ** Properties of the float model *)

Import Sheet.

Section VelocityEstimator.

Local Open Scope float_scope.

Lemma sample_eta (smp : Sample) : {| y := y smp; time := time smp |} = smp.
Proof. destruct smp; reflexivity. Qed.

Lemma lastN_all {A : Type} (n : nat) (l : list A) :
  (List.length l <= n)%nat -> lastN n l = l.
Proof.
  intros H. unfold lastN.
  replace (List.length l - n)%nat with 0%nat by lia. reflexivity.
Qed.

Lemma skipn_S_tl {A : Type} (n : nat) (l : list A) :
  skipn (S n) l = tl (skipn n l).
Proof.
  revert l. induction n as [| n IH]; intros l.
  - destruct l; reflexivity.
  - destruct l as [| a l]; [reflexivity |].
    change (skipn (S (S n)) (a :: l)) with (skipn (S n) l).
    rewrite IH. reflexivity.
Qed.

Lemma lastN_length {A : Type} (n : nat) (l : list A) :
  List.length (lastN n l) = Nat.min n (List.length l).
Proof. unfold lastN. rewrite length_skipn. lia. Qed.

(** Pushing onto a window that already holds the last five samples and
    shifting once gives the last five samples again. *)
Lemma lastN_push (l : list Sample) (smp : Sample) :
  (if (5 <? List.length (lastN 5 l ++ [smp]))%nat
   then tl (lastN 5 l ++ [smp]) else lastN 5 l ++ [smp])
  = lastN 5 (l ++ [smp]).
Proof.
  rewrite length_app, lastN_length. simpl List.length.
  destruct (Nat.le_gt_cases 5 (List.length l)) as [Hge | Hlt].
  - replace (5 <? Nat.min 5 (List.length l) + 1)%nat with true
      by (symmetry; apply Nat.ltb_lt; lia).
    unfold lastN. rewrite length_app. simpl List.length.
    replace (List.length l + 1 - 5)%nat with (S (List.length l - 5)) by lia.
    rewrite skipn_S_tl, skipn_app.
    replace (List.length l - 5 - List.length l)%nat with 0%nat by lia.
    reflexivity.
  - replace (5 <? Nat.min 5 (List.length l) + 1)%nat with false
      by (symmetry; apply Nat.ltb_ge; lia).
    rewrite (lastN_all 5 l) by lia.
    rewrite lastN_all; [reflexivity |].
    rewrite length_app. simpl. lia.
Qed.

Lemma calculateVelocity_window (l : list Sample) (smp : Sample) :
  fst (calculateVelocity (lastN 5 l) (y smp) (time smp)) = lastN 5 (l ++ [smp]).
Proof.
  unfold calculateVelocity. cbn [fst]. rewrite sample_eta. apply lastN_push.
Qed.

Lemma observeAll_lastN (samples : list Sample) :
  observeAll [] samples = lastN 5 samples.
Proof.
  induction samples as [| smp l IH] using rev_ind.
  - reflexivity.
  - unfold observeAll in *. rewrite fold_left_app. cbn [fold_left].
    rewrite IH. apply calculateVelocity_window.
Qed.

Lemma nth_error_last (w : list Sample) (d : Sample) :
  w <> [] -> nth_error w (List.length w - 1) = Some (List.last w d).
Proof.
  induction w as [| a w IH]; intros Hne; [congruence |].
  destruct w as [| b w].
  - reflexivity.
  - cbn [List.length]. replace (S (S (List.length w)) - 1)%nat with (S (List.length w)) by lia.
    cbn [nth_error]. 
    replace (List.length w) with (List.length (b :: w) - 1)%nat by (simpl; lia).
    rewrite IH by discriminate. reflexivity.
Qed.

Lemma calculateVelocity_value (w : list Sample) (cy ct : float) :
  snd (calculateVelocity w cy ct) = windowVelocity (fst (calculateVelocity w cy ct)).
Proof.
  unfold calculateVelocity. cbn [fst snd].
  set (kept := if (5 <? _)%nat then _ else _).
  destruct kept as [| a [| b k]] eqn:E; try reflexivity.
  replace (2 <=? List.length (a :: b :: k))%nat with true by reflexivity.
  rewrite (nth_error_last (a :: b :: k) a) by discriminate.
  cbn [nth_error]. unfold windowVelocity. reflexivity.
Qed.

End VelocityEstimator.

(** C2: after any sequence of observations made from an empty window, one
    more call of [calculateVelocity] leaves the last five samples observed
    (oldest evicted first, at most five kept, the newest last) and returns
    the velocity between the oldest and the newest sample of that window:
    their position difference over their time difference, and exactly 0
    when the window holds fewer than two samples or the time difference
    is not strictly positive. *)
Theorem C2_velocity_estimator (samples : list Sample) (smp : Sample) :
  let kept := lastN 5 (samples ++ [smp]) in
  calculateVelocity (observeAll [] samples) (y smp) (time smp)
    = (kept, windowVelocity kept)
  /\ (List.length kept <= 5)%nat
  /\ List.last kept smp = smp.
Proof.
  intros kept. split; [| split].
  - rewrite (surjective_pairing (calculateVelocity _ _ _)).
    rewrite calculateVelocity_value.
    rewrite observeAll_lastN, calculateVelocity_window. reflexivity.
  - unfold kept. rewrite lastN_length. lia.
  - unfold kept, lastN. rewrite length_app. cbn [List.length].
    rewrite skipn_app.
    replace (List.length samples + 1 - 5 - List.length samples)%nat with 0%nat by lia.
    cbn [skipn]. apply last_last.
Qed.

(** *** Order facts of binary64 numbers *)

Section FloatOrder.

Import SpecFloat.
Local Open Scope float_scope.

Lemma SFcompare_antisym (a b : spec_float) :
  SFcompare b a = option_map CompOpp (SFcompare a b).
Proof.
  destruct a as [sa | sa | | sa ma ea], b as [sb | sb | | sb mb eb]; cbn;
    try reflexivity;
    try (destruct sa; reflexivity); try (destruct sb; reflexivity);
    try (destruct sa, sb; reflexivity).
  destruct sa, sb; cbn; try reflexivity.
  - rewrite (Z.compare_antisym ea eb).
    destruct (ea ?= eb)%Z; cbn; try reflexivity.
    rewrite (Pos.compare_cont_antisym ma mb Eq). reflexivity.
  - rewrite (Z.compare_antisym ea eb).
    destruct (ea ?= eb)%Z; cbn; try reflexivity.
    rewrite (Pos.compare_cont_antisym ma mb Eq). cbn.
    destruct (Pos.compare_cont Eq ma mb); reflexivity.
Qed.

Lemma is_nan_false (x : float) : is_nan x = false -> Prim2SF x <> S754_nan.
Proof.
  unfold is_nan. rewrite eqb_spec. intros H E. rewrite E in H. discriminate.
Qed.

(** [x <= t] is "x does not exceed t" for numbers other than NaN. *)
Lemma leb_not_exceeds (x t : float) :
  is_nan x = false -> is_nan t = false -> (x <=? t) = negb (t <? x).
Proof.
  intros Hx Ht. apply is_nan_false in Hx. apply is_nan_false in Ht.
  rewrite leb_spec, ltb_spec. unfold SFleb, SFltb.
  rewrite (SFcompare_antisym (Prim2SF x) (Prim2SF t)).
  destruct (SFcompare (Prim2SF x) (Prim2SF t)) as [[ | | ] |] eqn:E; try reflexivity.
  exfalso. destruct (Prim2SF x), (Prim2SF t); cbn in E; try discriminate; congruence.
Qed.

Lemma ltb_antisym (x z : float) : (x <? z) = true -> (z <? x) = false.
Proof.
  rewrite !ltb_spec. unfold SFltb.
  rewrite (SFcompare_antisym (Prim2SF x) (Prim2SF z)).
  destruct (SFcompare (Prim2SF x) (Prim2SF z)) as [[ | | ] |]; cbn; congruence.
Qed.

(** A number whose magnitude is above a non-negative threshold and that is
    not negative is positive. *)
Lemma fast_not_negative_positive (thr v : float) :
  (0 <=? thr) = true -> (thr <? PrimFloat.abs v) = true -> (v <? 0) = false ->
  (0 <? v) = true.
Proof.
  rewrite leb_spec, !ltb_spec, abs_spec.
  change (Prim2SF 0) with (S754_zero false).
  destruct (Prim2SF v) as [sv | sv | | sv mv ev], (Prim2SF thr) as [st | st | | st mt et];
    cbn; try congruence; try (destruct sv; cbn; congruence);
    try (destruct st; cbn; congruence);
    try (destruct sv, st; cbn; congruence).
Qed.

End FloatOrder.

(** *** The snap-point selector *)

Section Selector.

Local Open Scope string_scope.
Local Open Scope float_scope.

Lemma velocityThreshold_nonneg (s : State) : (0 <=? velocityThreshold s) = true.
Proof. unfold velocityThreshold. destruct (isMobile s); reflexivity. Qed.

(** The thresholds loop agrees with the walk over snap points and
    thresholds. *)
Lemma position_rule (s : State) (hp : float) :
  match firstThreshold hp (snapThresholds s) 0%Z with
  | Some i => arrayGet snapPointOrder i
  | None => arrayGet snapPointOrder (arrayLength snapPointOrder - 1)%Z
  end = selectByPosition snapPointOrder (snapThresholds s) hp.
Proof.
  unfold snapThresholds, selectByPosition, snapPointOrder.
  destruct (isMobile s); cbn [firstThreshold firstWithin];
    repeat match goal with
           | |- context [?a <=? ?b] => destruct (a <=? b)
           end; reflexivity.
Qed.

(** [indexOf] on the fixed sequence: the position of a member. *)
Lemma indexOf_member (i : nat) (x : string) :
  nth_error snapPointOrder i = Some x -> indexOf snapPointOrder x = Z.of_nat i.
Proof.
  destruct i as [| [| [| i]]]; cbn; intros H; inversion H; subst; try reflexivity.
  destruct i; discriminate.
Qed.

(** [indexOf] on the fixed sequence for any string. *)
Lemma indexOf_cases (x : string) :
  (indexOf snapPointOrder x = 0%Z /\ x = "closed")
  \/ (indexOf snapPointOrder x = 1%Z /\ x = "half-open")
  \/ (indexOf snapPointOrder x = 2%Z /\ x = "fully-open")
  \/ indexOf snapPointOrder x = (-1)%Z.
Proof.
  unfold indexOf, snapPointOrder. cbn [indexOfFrom].
  destruct (String.eqb_spec "closed" x) as [E0 | _]; [left; auto |].
  destruct (String.eqb_spec "half-open" x) as [E1 | _]; [right; left; auto |].
  destruct (String.eqb_spec "fully-open" x) as [E2 | _]; [right; right; left; auto |].
  right; right; right; reflexivity.
Qed.

Lemma determineTargetSnapPoint_total (s : State) (currentHeight : Length) (velocity : float) :
  exists target,
    determineTargetSnapPoint s currentHeight velocity = Some target
    /\ In target snapPointOrder.
Proof.
  unfold determineTargetSnapPoint.
  destruct (velocityThreshold s <? PrimFloat.abs velocity).
  - destruct (velocity <? 0).
    + destruct (indexOf_cases (currentSnapPoint s)) as [[E C] | [[E C] | [[E C] | E]]];
        rewrite E; cbn.
      * exists "half-open"; cbn; auto.
      * exists "fully-open"; cbn; auto.
      * exists (currentSnapPoint s); rewrite C; cbn; auto.
      * exists "closed"; cbn; auto.
    + destruct (indexOf_cases (currentSnapPoint s)) as [[E C] | [[E C] | [[E C] | E]]];
        rewrite E; cbn.
      * exists "closed"; cbn; auto.
      * exists "closed"; cbn; auto.
      * exists "half-open"; cbn; auto.
      * exists "closed"; cbn; auto.
  - rewrite position_rule. unfold selectByPosition, snapThresholds, snapPointOrder.
    destruct (isMobile s); cbn [firstWithin];
      repeat match goal with
             | |- context [?a <=? ?b] => destruct (a <=? b)
             end; cbn; eauto 7.
Qed.


End Selector.

Section SelectorClaims.

Local Open Scope string_scope.
Local Open Scope float_scope.

(** C1: with the current snap point at index [i] of the ordered sequence,
    [determineTargetSnapPoint] uses the velocity threshold 0.3 on mobile
    and 0.5 otherwise; when |velocity| exceeds it, a negative velocity
    gives the snap point at the next index and a positive velocity the one
    at the previous index, clamped at the ends of the sequence; otherwise
    the extent fraction is compared with the ascending thresholds
    [0.1, 0.3, 0.7] (mobile) or [0.1, 0.35, 0.75] and the result is the
    first snap point whose threshold the fraction does not exceed, or the
    last snap point if there is none.  "Does not exceed" is [<=?], which
    for numbers other than NaN is the negation of "exceeds"
    ([leb_not_exceeds]); a magnitude above the threshold leaves only
    negative and positive velocities. *)
Theorem C1_select_target (s : State) (currentHeight : Length) (velocity : float) (i : nat) :
  nth_error snapPointOrder i = Some (currentSnapPoint s) ->
  let fraction := heightPercent s currentHeight in
  let result := determineTargetSnapPoint s currentHeight velocity in
  velocityThreshold s = (if isMobile s then 0.3 else 0.5)
  /\ snapThresholds s = (if isMobile s then [0.1; 0.3; 0.7] else [0.1; 0.35; 0.75])
  /\ ((velocityThreshold s <? PrimFloat.abs velocity) = true ->
      (velocity <? 0) = true ->
      result = nth_error snapPointOrder (nextIndex snapPointOrder i))
  /\ ((velocityThreshold s <? PrimFloat.abs velocity) = true ->
      (0 <? velocity) = true ->
      result = nth_error snapPointOrder (previousIndex i))
  /\ ((velocityThreshold s <? PrimFloat.abs velocity) = true ->
      (velocity <? 0) = true \/ (0 <? velocity) = true)
  /\ ((velocityThreshold s <? PrimFloat.abs velocity) = false ->
      result = selectByPosition snapPointOrder (snapThresholds s) fraction).
Proof.
  intros Hi fraction result.
  pose proof (indexOf_member i _ Hi) as Hidx.
  assert (Hcur : (i = 0%nat /\ currentSnapPoint s = "closed")
                 \/ (i = 1%nat /\ currentSnapPoint s = "half-open")
                 \/ (i = 2%nat /\ currentSnapPoint s = "fully-open")).
  { destruct i as [| [| [| i]]]; cbn in Hi; inversion Hi; auto.
    destruct i; discriminate. }
  split; [reflexivity |]. split; [reflexivity |].
  split; [| split; [| split]].
  - intros Hfast Hneg. unfold result, determineTargetSnapPoint.
    rewrite Hfast, Hneg, Hidx.
    destruct Hcur as [[-> Hc] | [[-> Hc] | [-> Hc]]]; rewrite ?Hc; reflexivity.
  - intros Hfast Hpos. unfold result, determineTargetSnapPoint.
    rewrite Hfast, (ltb_antisym _ _ Hpos), Hidx.
    destruct Hcur as [[-> Hc] | [[-> Hc] | [-> Hc]]]; reflexivity.
  - intros Hfast. destruct (velocity <? 0) eqn:Hneg; [left; reflexivity | right].
    exact (fast_not_negative_positive _ _ (velocityThreshold_nonneg s) Hfast Hneg).
  - intros Hslow. unfold result, determineTargetSnapPoint.
    rewrite Hslow. apply position_rule.
Qed.

Lemma C1_select_target_witness :
  let s := mount demoProps 1280 800 in
  nth_error snapPointOrder 1 = Some (currentSnapPoint s)
  /\ determineTargetSnapPoint s (pct 50) (-0.6) = Some "fully-open"
  /\ determineTargetSnapPoint s (pct 50) 0.6 = Some "closed"
  /\ determineTargetSnapPoint s (pct 20) 0 = Some "half-open".
Proof.
  intros s.
  assert (Hi : nth_error snapPointOrder 1 = Some (currentSnapPoint s)) by reflexivity.
  split; [exact Hi |].
  destruct (C1_select_target s (pct 50) (-0.6) 1 Hi) as (_ & _ & Hup & _).
  destruct (C1_select_target s (pct 50) 0.6 1 Hi) as (_ & _ & _ & Hdown & _).
  destruct (C1_select_target s (pct 20) 0 1 Hi) as (_ & _ & _ & _ & _ & Hpos).
  split; [| split].
  - rewrite Hup; reflexivity.
  - rewrite Hdown; reflexivity.
  - rewrite Hpos; reflexivity.
Defined.

(** C8 as stated fails: a caller supplies the sequence
    [closed, fully-open], the sheet rests at [closed], and a fast upward
    release selects [half-open], which is not in the supplied sequence. *)
Lemma C8_counterexample :
  let s := mount twoPointProps 1280 800 in
  In (currentSnapPoint s) (snapPoints twoPointProps)
  /\ getCurrentHeight s = Some (px 80)
  /\ determineTargetSnapPoint s (px 80) (-0.6) = Some "half-open"
  /\ ~ In "half-open" (snapPoints twoPointProps).
Proof.
  intros s. split; [left; reflexivity |].
  split; [reflexivity |]. split; [reflexivity |].
  cbn. intros [H | [H | []]]; discriminate.
Qed.

(** C8 (amended): [determineTargetSnapPoint] returns a snap point for
    every state, height and velocity (boundary fractions, infinities and
    NaN included), and that snap point is a member of the fixed sequence
    [closed, half-open, fully-open]; the [snapPoints] prop is not read. *)
Theorem C8_total_in_fixed_sequence (s : State) (currentHeight : Length) (velocity : float) :
  exists target,
    determineTargetSnapPoint s currentHeight velocity = Some target
    /\ In target snapPointOrder.
Proof. apply determineTargetSnapPoint_total. Qed.

End SelectorClaims.

(** *** The transition animator *)

Section Animator.

Local Open Scope string_scope.
Local Open Scope float_scope.

Variable M : JSMath.
Variable p : Props.

Lemma animateToSnapPoint_running (s : State) (now : float) (target : string) :
  isAnimating s = true -> animateToSnapPoint s now target = Some s.
Proof. intros H. unfold animateToSnapPoint. rewrite H. reflexivity. Qed.

Lemma animateToValue_running (s : State) (now : float) (v : option string) :
  isAnimating s = true -> animateToValue s now v = Some s.
Proof.
  intros H. destruct v as [t |]; cbn.
  - apply animateToSnapPoint_running, H.
  - rewrite H. reflexivity.
Qed.

(** A request made while no transition runs, for a snap point of the
    table, starts one. *)
Lemma animateToSnapPoint_idle (s : State) (now : float) (target : string)
  (targetConfig currentConfig' : SnapConfig) :
  isAnimating s = false ->
  property (snapPointConfig s) target = Some targetConfig ->
  property (snapPointConfig s) (currentSnapPoint s) = Some currentConfig' ->
  exists s',
    animateToSnapPoint s now target = Some s'
    /\ isAnimating s' = true
    /\ animationRef s' =
         Some {| targetSnapPoint := target; startTime := now;
                 duration := if isMobile s then 500 else 600;
                 spring := getSpringConfig s |}
    /\ startHeight s' = height currentConfig'
    /\ targetHeight s' = height targetConfig
    /\ animationProgress s' = 0
    /\ currentSnapPoint s' = currentSnapPoint s
    /\ isDragging s' = isDragging s
    /\ velocityRef s' = velocityRef s
    /\ settled s' = settled s
    /\ closeRequests s' = closeRequests s.
Proof.
  intros Hidle Ht Hc. unfold animateToSnapPoint. rewrite Hidle, Ht, Hc.
  eexists. split; [reflexivity |]. cbn. repeat split; reflexivity.
Qed.

(** While a transition runs, a command changes nothing but, possibly,
    the count of close requests. *)
Lemma command_running (s : State) (e : Event) :
  isAnimating s = true -> isCommand e = true ->
  step M p e s = Some s \/ step M p e s = Some (onClose s).
Proof.
  intros H He.
  destruct e; try discriminate He; cbn [step].
  - unfold handleKeyDown.
    repeat match goal with
           | |- context [if ?c then _ else _] => destruct c
           end;
      rewrite ?animateToSnapPoint_running, ?animateToValue_running by exact H; auto.
  - unfold handleHandleKeyDown.
    destruct (_ || _); rewrite ?animateToSnapPoint_running by exact H; auto.
  - unfold handleSnapPointClick. rewrite H. rewrite andb_false_r. auto.
  - unfold handleOverlayClick.
    destruct (String.eqb _ _); rewrite ?animateToSnapPoint_running by exact H; auto.
  - unfold handleMinimize. rewrite H. auto.
  - unfold handleMaximize. rewrite H. auto.
  - unfold handleToggle. rewrite H. auto.
Qed.

(** The invariant of a running transition: until its frame callback
    completes or is withdrawn, the callback stays scheduled and nothing
    is announced. *)
Lemma step_keeps_running (s : State) (a : Animation) (e : Event) :
  isAnimating s = true -> animationRef s = Some a -> keepsRunning a e = true ->
  exists s',
    step M p e s = Some s'
    /\ isAnimating s' = true /\ animationRef s' = Some a
    /\ settled s' = settled s /\ currentSnapPoint s' = currentSnapPoint s
    /\ startHeight s' = startHeight s /\ targetHeight s' = targetHeight s.
Proof.
  intros H Ha He.
  destruct (isCommand e) eqn:Hc.
  - destruct (command_running s e H Hc) as [-> | ->]; eexists; split; try reflexivity;
      cbn; auto 10.
  - destruct e; try discriminate Hc; cbn [step].
    + eexists; split; [reflexivity |]. cbn. auto 10.
    + unfold handleTouchStart. rewrite H. eexists; split; [reflexivity |]. auto 10.
    + unfold handleTouchMove. rewrite H, orb_true_r.
      eexists; split; [reflexivity |]. auto 10.
    + unfold handleTouchEnd. rewrite H, orb_true_r.
      eexists; split; [reflexivity |]. auto 10.
    + cbn in He. unfold frame, animate. rewrite Ha, He.
      eexists; split; [reflexivity |]. cbn. auto 10.
    + discriminate He.
Qed.

Lemma run_keeps_running (events : list Event) (s : State) (a : Animation) :
  isAnimating s = true -> animationRef s = Some a ->
  forallb (keepsRunning a) events = true ->
  exists s',
    run M p events s = Some s'
    /\ isAnimating s' = true /\ animationRef s' = Some a
    /\ settled s' = settled s /\ currentSnapPoint s' = currentSnapPoint s
    /\ startHeight s' = startHeight s /\ targetHeight s' = targetHeight s.
Proof.
  revert s. induction events as [| e events IH]; intros s H Ha Hall.
  - exists s. cbn. auto 10.
  - cbn in Hall. apply andb_true_iff in Hall as [He Hall].
    destruct (step_keeps_running s a e H Ha He)
      as (s1 & Hstep & H1 & Ha1 & Hs1 & Hc1 & Hh1 & Ht1).
    destruct (IH s1 H1 Ha1 Hall) as (s' & Hrun & H' & Ha' & Hs' & Hc' & Hh' & Ht').
    exists s'. cbn [run]. rewrite Hstep.
    repeat split; try assumption; congruence.
Qed.

End Animator.

Section TransitionClaims.

Local Open Scope string_scope.
Local Open Scope float_scope.

(** C4, at the failing input: the sheet rests at [fully-open], no
    transition runs, and the Home key requests [fully-open].  The request
    is not a no-op: a transition from [fully-open] to [fully-open] is
    started (start and target extent both 90%), it holds the animator in
    [Running] for its 600 ms, and on completion [fully-open] is announced
    as a settled snap point. *)
Theorem C4_same_target_starts_transition :
  let s := mount fullyOpenProps 1280 800 in
  currentSnapPoint s = "fully-open" /\ isAnimating s = false
  /\ exists s',
       handleKeyDown fullyOpenProps s "Home" 0 = Some s'
       /\ s' <> s
       /\ isAnimating s' = true
       /\ option_map targetSnapPoint (animationRef s') = Some "fully-open"
       /\ startHeight s' = pct 90 /\ targetHeight s' = pct 90
       /\ settled s = []
       /\ forall M, settled (frame M 600 s') = ["fully-open"].
Proof.
  intros s. split; [reflexivity |]. split; [reflexivity |].
  eexists. split; [reflexivity |].
  split; [| repeat split; reflexivity].
  intros H. apply (f_equal isAnimating) in H. discriminate H.
Qed.

(** C5: take a running transition with frame callback [a], any events
    that neither complete nor cancel it, and then a frame whose linear
    progress is not below 1.  That frame appends exactly one settle
    notification, naming the target snap point; the current snap point is
    the target; the animator is idle; the velocity history is empty; and
    no callback stays scheduled, so later frames announce nothing. *)
Theorem C5_completion_settles_once (M : JSMath) (p : Props) (s : State) (a : Animation)
  (events : list Event) (t : float) :
  Running s ->
  animationRef s = Some a ->
  forallb (keepsRunning a) events = true ->
  (linearProgress a t <? 1) = false ->
  exists s1,
    run M p events s = Some s1
    /\ let s2 := frame M t s1 in
       settled s2 = (settled s ++ [targetSnapPoint a])%list
       /\ currentSnapPoint s2 = targetSnapPoint a
       /\ Idle s2
       /\ velocityRef s2 = []
       /\ animationRef s2 = None
       /\ forall t', frame M t' s2 = s2.
Proof.
  intros H Ha Hall Hdone. unfold Running, Idle in *.
  destruct (run_keeps_running M p events s a H Ha Hall)
    as (s1 & Hrun & H1 & Ha1 & Hs1 & _).
  exists s1. split; [exact Hrun |].
  assert (Hframe : frame M t s1 =
            announceSnapPointChange (targetSnapPoint a)
              (setAnimationRef None
              (setVelocityRef []
              (setDragVelocity 0
              (setAnimationProgress 0
              (setCurrentSnapPoint (targetSnapPoint a)
              (setIsAnimating false
              (setAnimationProgress
                 (springEase M (spring a) (linearProgress a t)) s1)))))))).
  { unfold frame. rewrite Ha1. unfold animate. rewrite Hdone. reflexivity. }
  cbv zeta. rewrite Hframe. cbn. rewrite Hs1.
  repeat split; reflexivity.
Qed.

Lemma C5_completion_settles_once_witness :
  Running runningState
  /\ exists s1,
       run linearMath demoProps
         [Frame 100; TouchStart 400 150; KeyDown "End" 200; Frame 300] runningState
         = Some s1
       /\ settled (frame linearMath 600 s1) = ["fully-open"]
       /\ currentSnapPoint (frame linearMath 600 s1) = "fully-open".
Proof.
  split; [reflexivity |].
  destruct (C5_completion_settles_once linearMath demoProps runningState
              runningAnimation
              [Frame 100; TouchStart 400 150; KeyDown "End" 200; Frame 300] 600
              eq_refl eq_refl eq_refl eq_refl)
    as (s1 & Hrun & Hsettled & Hcurrent & _).
  exists s1. split; [exact Hrun |]. split; [exact Hsettled | exact Hcurrent].
Defined.

End TransitionClaims.

(** *** Gestures, commands and viewport changes *)

Section GestureClaims.

Local Open Scope string_scope.
Local Open Scope float_scope.

(** Every snap point of the fixed sequence has a configuration. *)
Lemma config_of_member (s : State) (snapPoint : string) :
  In snapPoint snapPointOrder ->
  exists config, property (snapPointConfig s) snapPoint = Some config.
Proof.
  unfold snapPointConfig, getSnapPointConfig.
  intros [<- | [<- | [<- | []]]]; destruct (isTablet s); cbn; eauto.
Qed.

Lemma getCurrentHeight_idle (s : State) :
  isAnimating s = false -> getCurrentHeight s = option_map height (currentConfig s).
Proof. intros H. unfold getCurrentHeight. rewrite H. reflexivity. Qed.

Lemma getCurrentHeight_running (s : State) :
  isAnimating s = true ->
  getCurrentHeight s =
    Some (interpolate (startHeight s) (targetHeight s) (animationProgress s)).
Proof.
  intros H. unfold getCurrentHeight, interpolate. rewrite H. cbn.
  destruct (unit (startHeight s)), (unit (targetHeight s)); reflexivity.
Qed.




(** C7 as stated fails: with a gesture session open (pointer-down at
    rest in [half-open]) the ArrowUp key is not rejected; it starts the
    transition to [fully-open] while the session stays open. *)
Lemma C7_counterexample :
  reachable linearMath demoProps 1280 800 pressedState
  /\ isDragging pressedState = true /\ Idle pressedState
  /\ step linearMath demoProps (KeyDown "ArrowUp" 5) pressedState
       = Some pressedRunningState
  /\ pressedRunningState <> pressedState
  /\ isDragging pressedRunningState = true
  /\ Running pressedRunningState
  /\ option_map targetSnapPoint (animationRef pressedRunningState) = Some "fully-open".
Proof.
  split; [exists [TouchStart 400 0]; vm_compute; reflexivity |].
  repeat split; try (vm_compute; reflexivity).
  intros H. apply (f_equal isAnimating) in H. vm_compute in H. discriminate H.
Qed.

(** C7 (amended): while a transition is running, a pointer-down is
    rejected as a no-op, and so is every transition request: the direct
    call is a no-op, and a keyboard or button command leaves the state
    unchanged except that it may count a close request.  An open gesture
    session does not reject a transition request: with no transition
    running, a request for a configured snap point starts the transition
    whether or not a session is open, and leaves the session as it is. *)
Theorem C7_exclusion (M : JSMath) (p : Props) (s : State) :
  (Running s ->
     (forall clientY now, handleTouchStart s clientY now = s)
     /\ (forall now target, animateToSnapPoint s now target = Some s)
     /\ (forall e, isCommand e = true ->
           step M p e s = Some s \/ step M p e s = Some (onClose s)))
  /\ (Idle s ->
      forall now target targetConfig currentConfig',
        property (snapPointConfig s) target = Some targetConfig ->
        property (snapPointConfig s) (currentSnapPoint s) = Some currentConfig' ->
        exists s',
          animateToSnapPoint s now target = Some s'
          /\ Running s'
          /\ isDragging s' = isDragging s).
Proof.
  unfold Running, Idle. split.
  - intros H. split; [| split].
    + intros clientY now. unfold handleTouchStart. rewrite H. reflexivity.
    + intros now target. apply animateToSnapPoint_running, H.
    + intros e He. apply command_running; assumption.
  - intros H now target tc cc Ht Hc.
    destruct (animateToSnapPoint_idle s now target tc cc H Ht Hc)
      as (s' & Hs' & Hrun & _ & _ & _ & _ & _ & Hd & _).
    exists s'. auto.
Qed.

Lemma C7_exclusion_witness :
  isAnimating runningState = true
  /\ handleTouchStart runningState 400 10 = runningState
  /\ animateToSnapPoint runningState 10 "closed" = Some runningState.
Proof.
  destruct (C7_exclusion linearMath demoProps runningState) as [Hrunning _].
  destruct (Hrunning eq_refl) as (Hstart & Hrequest & _).
  split; [reflexivity |]. split; [apply Hstart | apply Hrequest].
Defined.

(** C9 as stated fails: a transition from [half-open] to [fully-open]
    starts on a desktop viewport (50% to 90%); the viewport then becomes
    mobile, where the table gives 60% and 95%.  The transition keeps
    running, but the displayed extent stays the interpolation between the
    captured 50% and 90% (here 50%, at progress 0) and is not the
    interpolation between the latest table's extents (60%). *)
Lemma C9_counterexample :
  animateToSnapPoint (mount demoProps 1280 800) 0 "fully-open" = Some runningState
  /\ let s' := handleResize 375 667 runningState in
     isMobile s' = true /\ isAnimating s' = true
     /\ option_map height (property (snapPointConfig s') "half-open") = Some (pct 60)
     /\ option_map height (property (snapPointConfig s') "fully-open") = Some (pct 95)
     /\ getCurrentHeight s' = Some (pct 50)
     /\ liveExtent s' = Some (pct 60)
     /\ getCurrentHeight s' <> liveExtent s'.
Proof.
  split; [vm_compute; reflexivity |]. cbv zeta.
  repeat split; try (vm_compute; reflexivity).
  intros H.
  apply (f_equal (option_map (fun l => num l <? 55))) in H.
  vm_compute in H. discriminate H.
Qed.

(** C9 (amended): when the viewport size changes while a transition is
    running, the device class and viewport cells are recomputed from the
    new size, the transition keeps running with the same frame callback
    and progress, and its later frames advance exactly as without the
    change; the extent displayed now and after each later frame is the
    interpolation between the start and target extents captured when the
    transition was requested, not those of the latest table. *)
Theorem C9_resize_while_running (M : JSMath) (s : State) (a : Animation) (w h : float) :
  Running s ->
  animationRef s = Some a ->
  let s' := handleResize w h s in
  isMobile s' = (w <? 768)
  /\ isTablet s' = ((768 <=? w) && (w <? 1024))
  /\ viewportWidth s' = w /\ viewportHeight s' = h
  /\ Running s'
  /\ animationRef s' = Some a
  /\ animationProgress s' = animationProgress s
  /\ getCurrentHeight s' =
       Some (interpolate (startHeight s) (targetHeight s) (animationProgress s))
  /\ (forall t,
        animationProgress (frame M t s') = animationProgress (frame M t s)
        /\ isAnimating (frame M t s') = isAnimating (frame M t s)
        /\ settled (frame M t s') = settled (frame M t s))
  /\ (forall t, (linearProgress a t <? 1) = true ->
        getCurrentHeight (frame M t s') =
          Some (interpolate (startHeight s) (targetHeight s)
                  (springEase M (spring a) (linearProgress a t)))).
Proof.
  intros H Ha s'. unfold Running in *.
  assert (H' : isAnimating s' = true) by exact H.
  assert (Ha' : animationRef s' = Some a) by exact Ha.
  repeat split; try reflexivity; try assumption.
  - rewrite getCurrentHeight_running by exact H'. reflexivity.
  - unfold frame. rewrite Ha, Ha'. unfold animate.
    destruct (linearProgress a t <? 1); reflexivity.
  - unfold frame. rewrite Ha, Ha'. unfold animate.
    destruct (linearProgress a t <? 1); reflexivity.
  - unfold frame. rewrite Ha, Ha'. unfold animate.
    destruct (linearProgress a t <? 1); reflexivity.
  - intros t Ht. unfold frame. rewrite Ha'. unfold animate. rewrite Ht.
    rewrite getCurrentHeight_running by exact H'. reflexivity.
Qed.

Lemma C9_resize_while_running_witness :
  isAnimating (handleResize 375 667 runningState) = true
  /\ getCurrentHeight (handleResize 375 667 runningState) = Some (pct 50).
Proof.
  destruct (C9_resize_while_running linearMath runningState runningAnimation
              375 667 eq_refl eq_refl)
    as (_ & _ & _ & _ & Hrun & _ & _ & Hheight & _).
  split; [exact Hrun |]. rewrite Hheight. vm_compute. reflexivity.
Defined.

End GestureClaims.

(** ** Properties of the easing curve over the reals *)

Module RealSpringFacts.

Import RealSpring.
Local Open Scope R_scope.

Lemma exp_neg_le (x : R) : 0 <= x -> exp (- x) <= / (1 + x).
Proof.
  intros H. rewrite exp_Ropp.
  apply Rinv_le_contravar; [lra |]. apply exp_ineq1_le.
Qed.

(** Exponential decay beats any constant factor. *)
Lemma decay (K r eps : R) :
  0 <= K -> 0 < r -> 0 < eps ->
  exists T, 0 <= T /\ forall t, T < t -> K * exp (- (r * t)) < eps.
Proof.
  intros HK Hr Heps. exists (K / (r * eps)). split.
  - apply Rmult_le_pos; [assumption |]. apply Rlt_le, Rinv_0_lt_compat. nra.
  - intros t Ht.
    assert (Hpos : 0 <= K / (r * eps)).
    { apply Rmult_le_pos; [assumption |]. apply Rlt_le, Rinv_0_lt_compat. nra. }
    assert (Hrt : 0 < r * t) by nra.
    assert (HKt : K < eps * (r * t)).
    { apply (Rmult_lt_compat_r (r * eps)) in Ht; [| nra].
      unfold Rdiv in Ht. rewrite Rmult_assoc, Rinv_l in Ht by nra. nra. }
    apply Rle_lt_trans with (K * / (1 + r * t)).
    + apply Rmult_le_compat_l; [assumption |]. apply exp_neg_le. lra.
    + apply (Rmult_lt_reg_r (1 + r * t)); [lra |].
      rewrite Rmult_assoc, Rinv_l by lra. nra.
Qed.

Lemma sinh_cosh_bound (x k : R) :
  0 <= x -> Rabs (cosh x + k * sinh x) <= (1 + Rabs k) * exp x.
Proof.
  intros Hx.
  assert (He : 0 < exp x) by apply exp_pos.
  assert (Hen : 0 < exp (- x)) by apply exp_pos.
  assert (Hle : exp (- x) <= exp x).
  { destruct (Req_dec x 0) as [-> | Hne].
    - rewrite Ropp_0. lra.
    - apply Rlt_le, exp_increasing. lra. }
  assert (Hc : Rabs (cosh x) <= exp x).
  { unfold cosh. rewrite Rabs_pos_eq; lra. }
  assert (Hs : Rabs (sinh x) <= exp x).
  { unfold sinh. rewrite Rabs_pos_eq; lra. }
  eapply Rle_trans; [apply Rabs_triang |].
  rewrite Rabs_mult.
  pose proof (Rabs_pos k) as Hk.
  nra.
Qed.

Lemma trig_bound (x k : R) : Rabs (cos x + k * sin x) <= 1 + Rabs k.
Proof.
  eapply Rle_trans; [apply Rabs_triang |].
  rewrite Rabs_mult.
  pose proof (Rabs_pos k) as Hk.
  assert (Hc : Rabs (cos x) <= 1) by (apply Rabs_le, COS_bound).
  assert (Hs : Rabs (sin x) <= 1) by (apply Rabs_le, SIN_bound).
  nra.
Qed.

Lemma approaches_underdamped (a b k : R) :
  0 < a ->
  approaches (fun t => 1 - exp (- (a * t)) * (cos (b * t) + k * sin (b * t))) 1.
Proof.
  intros Ha eps Heps.
  destruct (decay (1 + Rabs k) a eps) as (T & HT & Hdecay);
    [pose proof (Rabs_pos k); lra | assumption | assumption |].
  exists T. intros t Ht.
  replace (1 - exp (- (a * t)) * (cos (b * t) + k * sin (b * t)) - 1)
    with (- (exp (- (a * t)) * (cos (b * t) + k * sin (b * t)))) by ring.
  rewrite Rabs_Ropp, Rabs_mult.
  rewrite (Rabs_pos_eq (exp _)) by (apply Rlt_le, exp_pos).
  eapply Rle_lt_trans; [| apply (Hdecay t Ht)].
  rewrite (Rmult_comm (1 + Rabs k)).
  apply Rmult_le_compat_l; [apply Rlt_le, exp_pos | apply trig_bound].
Qed.

Lemma approaches_overdamped (a b k : R) :
  0 <= b -> b < a ->
  approaches (fun t => 1 - exp (- (a * t)) * (cosh (b * t) + k * sinh (b * t))) 1.
Proof.
  intros Hb Hba eps Heps.
  destruct (decay (1 + Rabs k) (a - b) eps) as (T & HT & Hdecay);
    [pose proof (Rabs_pos k); lra | lra | assumption |].
  exists T. intros t Ht.
  replace (1 - exp (- (a * t)) * (cosh (b * t) + k * sinh (b * t)) - 1)
    with (- (exp (- (a * t)) * (cosh (b * t) + k * sinh (b * t)))) by ring.
  rewrite Rabs_Ropp, Rabs_mult.
  rewrite (Rabs_pos_eq (exp _)) by (apply Rlt_le, exp_pos).
  eapply Rle_lt_trans; [| apply (Hdecay t Ht)].
  assert (Hbt : 0 <= b * t) by nra.
  eapply Rle_trans.
  - apply Rmult_le_compat_l; [apply Rlt_le, exp_pos |].
    apply (sinh_cosh_bound (b * t) k Hbt).
  - replace (- ((a - b) * t)) with (- (a * t) + b * t) by ring.
    rewrite exp_plus. lra.
Qed.

Section Regimes.

Lemma divide_nonzero (x d : R) : d <> 0 -> divide x d = Some (x / d).
Proof. intros H. unfold divide. destruct (Req_dec_T d 0); [contradiction | reflexivity]. Qed.

Lemma divide_zero (x : R) : divide x 0 = None.
Proof. unfold divide. destruct (Req_dec_T 0 0); [reflexivity | contradiction]. Qed.

Lemma root_nonneg (x : R) : 0 <= x -> root x = Some (sqrt x).
Proof. intros H. unfold root. destruct (Rle_dec 0 x); [reflexivity | contradiction]. Qed.

Variable c : SpringConfig.
Hypothesis Hvalid : valid c.

Lemma omega_pos : 0 < omega c.
Proof.
  destruct Hvalid as (Ht & _ & Hm). unfold omega.
  apply sqrt_lt_R0. apply Rdiv_lt_0_compat; assumption.
Qed.

Lemma root_tm_pos : 0 < sqrt (tension c * mass c).
Proof.
  destruct Hvalid as (Ht & _ & Hm). apply sqrt_lt_R0. apply Rmult_lt_0_compat; assumption.
Qed.

Lemma zeta_pos : 0 < zeta c.
Proof.
  destruct Hvalid as (_ & Hf & _). unfold zeta.
  apply Rdiv_lt_0_compat; [assumption |]. pose proof root_tm_pos. lra.
Qed.

Lemma omegaOf_value : omegaOf c = Some (omega c).
Proof.
  destruct Hvalid as (Ht & _ & Hm). unfold omegaOf, bind.
  rewrite divide_nonzero by lra.
  rewrite root_nonneg; [reflexivity |].
  apply Rlt_le, Rdiv_lt_0_compat; assumption.
Qed.

Lemma zetaOf_value : zetaOf c = Some (zeta c).
Proof.
  destruct Hvalid as (Ht & _ & Hm). unfold zetaOf, bind.
  rewrite root_nonneg by (apply Rlt_le, Rmult_lt_0_compat; assumption).
  rewrite divide_nonzero; [reflexivity |].
  pose proof root_tm_pos. lra.
Qed.

Lemma under_root_pos : zeta c < 1 -> 0 < sqrt (1 - zeta c * zeta c).
Proof.
  intros H. apply sqrt_lt_R0. pose proof zeta_pos. nra.
Qed.

Lemma over_root_pos : 1 < zeta c -> 0 < sqrt (zeta c * zeta c - 1).
Proof.
  intros H. apply sqrt_lt_R0. nra.
Qed.

Lemma over_root_lt : 1 < zeta c -> sqrt (zeta c * zeta c - 1) < zeta c.
Proof.
  intros H.
  apply Rlt_le_trans with (sqrt (zeta c * zeta c)).
  - apply sqrt_lt_1_alt. nra.
  - rewrite sqrt_square by lra. lra.
Qed.

Lemma springEase_underdamped (t : R) :
  zeta c < 1 -> springEase c t = Some (easeUnderdamped c t).
Proof.
  intros H. unfold springEase. rewrite omegaOf_value, zetaOf_value. cbn [bind].
  destruct (Rlt_dec (zeta c) 1) as [_ | Hn]; [| contradiction].
  pose proof zeta_pos as Hz. pose proof omega_pos as Hw.
  pose proof (under_root_pos H) as Hr.
  rewrite root_nonneg by nra. cbn [bind].
  rewrite divide_nonzero by nra. unfold easeUnderdamped.
  replace (- zeta c * omega c * t) with (- (zeta c * omega c * t)) by ring.
  reflexivity.
Qed.

Lemma springEase_overdamped (t : R) :
  1 < zeta c -> springEase c t = Some (easeOverdamped c t).
Proof.
  intros H. unfold springEase. rewrite omegaOf_value, zetaOf_value. cbn [bind].
  destruct (Rlt_dec (zeta c) 1) as [Hn | _]; [lra |].
  pose proof omega_pos as Hw.
  pose proof (over_root_pos H) as Hr.
  rewrite root_nonneg by nra. cbn [bind].
  rewrite divide_nonzero by nra. unfold easeOverdamped.
  replace (- zeta c * omega c * t) with (- (zeta c * omega c * t)) by ring.
  reflexivity.
Qed.

Lemma springEase_critical (t : R) : zeta c = 1 -> springEase c t = None.
Proof.
  intros H. unfold springEase. rewrite omegaOf_value, zetaOf_value. cbn [bind].
  destruct (Rlt_dec (zeta c) 1) as [Hn | _]; [lra |].
  rewrite H. replace (1 * 1 - 1) with 0 by ring.
  rewrite root_nonneg by lra. cbn [bind]. rewrite sqrt_0, Rmult_0_r.
  rewrite divide_zero. reflexivity.
Qed.

Lemma easeUnderdamped_0 : zeta c < 1 -> easeUnderdamped c 0 = 0.
Proof.
  intros H. unfold easeUnderdamped. cbv zeta.
  rewrite !Rmult_0_r, Ropp_0, exp_0, cos_0, sin_0. ring.
Qed.

Lemma easeOverdamped_0 : easeOverdamped c 0 = 0.
Proof.
  unfold easeOverdamped. cbv zeta.
  rewrite !Rmult_0_r, Ropp_0, exp_0, cosh_0, sinh_0. ring.
Qed.


Lemma zeta_lt_1_iff : zeta c < 1 <-> friction c * friction c < 4 * tension c * mass c.
Proof.
  destruct Hvalid as (Ht & Hf & Hm).
  pose proof root_tm_pos as Hr.
  assert (Hsq : sqrt (tension c * mass c) * sqrt (tension c * mass c)
                = tension c * mass c) by (apply sqrt_sqrt; nra).
  unfold zeta. split; intros H.
  - apply (Rmult_lt_compat_r (2 * sqrt (tension c * mass c))) in H; [| lra].
    unfold Rdiv in H. rewrite Rmult_assoc, Rinv_l in H by lra. nra.
  - apply (Rmult_lt_reg_r (2 * sqrt (tension c * mass c))); [lra |].
    unfold Rdiv. rewrite Rmult_assoc, Rinv_l by lra. nra.
Qed.

Lemma zeta_gt_1_iff : 1 < zeta c <-> 4 * tension c * mass c < friction c * friction c.
Proof.
  destruct Hvalid as (Ht & Hf & Hm).
  pose proof root_tm_pos as Hr.
  assert (Hsq : sqrt (tension c * mass c) * sqrt (tension c * mass c)
                = tension c * mass c) by (apply sqrt_sqrt; nra).
  unfold zeta. split; intros H.
  - apply (Rmult_lt_compat_r (2 * sqrt (tension c * mass c))) in H; [| lra].
    unfold Rdiv in H. rewrite Rmult_assoc, Rinv_l in H by lra. nra.
  - apply (Rmult_lt_reg_r (2 * sqrt (tension c * mass c))); [lra |].
    unfold Rdiv. rewrite Rmult_assoc, Rinv_l by lra. nra.
Qed.

(** Away from critical damping the curve is defined everywhere, starts at
    0 and approaches 1. *)
Lemma springEase_regular :
  zeta c <> 1 ->
  springEase c 0 = Some 0
  /\ exists ease, (forall t, springEase c t = Some (ease t)) /\ approaches ease 1.
Proof.
  intros Hne.
  pose proof zeta_pos as Hz. pose proof omega_pos as Hw.
  destruct (Rlt_dec (zeta c) 1) as [Hlt | Hge].
  - split.
    + rewrite springEase_underdamped, easeUnderdamped_0 by assumption. reflexivity.
    + exists (easeUnderdamped c). split.
      * intros t. apply springEase_underdamped, Hlt.
      * unfold easeUnderdamped. cbv zeta.
        intros eps Heps.
        destruct (approaches_underdamped (zeta c * omega c)
                    (omega c * sqrt (1 - zeta c * zeta c))
                    (zeta c * omega c / (omega c * sqrt (1 - zeta c * zeta c)))
                    ltac:(nra) eps Heps) as (T & HT).
        exists T. intros t Ht. specialize (HT t Ht). cbv beta in HT.
        exact HT.
  - assert (Hgt : 1 < zeta c) by lra.
    pose proof (over_root_pos Hgt) as Hr. pose proof (over_root_lt Hgt) as Hrl.
    split.
    + rewrite springEase_overdamped, easeOverdamped_0 by assumption. reflexivity.
    + exists (easeOverdamped c). split.
      * intros t. apply springEase_overdamped, Hgt.
      * unfold easeOverdamped. cbv zeta.
        intros eps Heps.
        destruct (approaches_overdamped (zeta c * omega c)
                    (omega c * sqrt (zeta c * zeta c - 1))
                    (zeta c * omega c / (omega c * sqrt (zeta c * zeta c - 1)))
                    ltac:(nra) ltac:(nra) eps Heps) as (T & HT).
        exists T. intros t Ht. specialize (HT t Ht). cbv beta in HT.
        exact HT.
Qed.

End Regimes.

Lemma valid_configured (isMobile : bool) : valid (getSpringConfig isMobile).
Proof. destruct isMobile; unfold valid; cbn; lra. Qed.

Lemma valid_critical : valid criticalConfig.
Proof. unfold valid; cbn; lra. Qed.

Lemma zeta_critical : zeta criticalConfig = 1.
Proof.
  unfold zeta. cbn. rewrite Rmult_1_r, sqrt_1. lra.
Qed.

Lemma valid_overdamped : valid overdampedConfig.
Proof. unfold valid; cbn; lra. Qed.

End RealSpringFacts.

(** *** The easing curve in binary64 *)

Section FloatSpring.

Local Open Scope float_scope.
















(** Both configured parameter sets are regular. *)
Lemma configured_regular (s : State) : regular (getSpringConfig s) = true.
Proof. unfold getSpringConfig. destruct (isMobile s); reflexivity. Qed.

End FloatSpring.

(** *** The formula in exact arithmetic *)

Section RealFormula.

Import RealSpring RealSpringFacts.
Local Open Scope R_scope.

(** At critical damping (tension 1, friction 2, mass 1: [zeta] is exactly
    1) the formula divides by [omegaN = 0] and has no real value at any
    [t]. *)
Lemma real_formula_critical_undefined :
  valid criticalConfig
  /\ zeta criticalConfig = 1
  /\ (forall t, springEase criticalConfig t = None)
  /\ springEase criticalConfig 0 <> Some 0.
Proof.
  split; [exact valid_critical |]. split; [exact zeta_critical |].
  assert (H : forall t, springEase criticalConfig t = None).
  { intros t. apply springEase_critical; [exact valid_critical | exact zeta_critical]. }
  split; [exact H |]. rewrite H. discriminate.
Qed.

(** In exact arithmetic, for positive parameters with [zeta] different
    from 1, the formula is the step response of its regime, is 0 at
    [t = 0] and tends to 1 as [t] grows.  This is a fact about the
    formula; what the code computes in binary64 is settled below. *)
Lemma real_formula_step_response (c : RealSpring.SpringConfig) :
  valid c ->
  zeta c <> 1%R ->
  ((zeta c < 1)%R -> forall t, springEase c t = Some (easeUnderdamped c t))
  /\ ((1 < zeta c)%R -> forall t, springEase c t = Some (easeOverdamped c t))
  /\ springEase c 0 = Some 0%R
  /\ exists ease, (forall t, springEase c t = Some (ease t)) /\ approaches ease 1.
Proof.
  intros Hvalid Hne.
  split; [intros H t; apply springEase_underdamped; assumption |].
  split; [intros H t; apply springEase_overdamped; assumption |].
  apply springEase_regular; assumption.
Qed.

End RealFormula.

(** *** Claims about the easing curve *)

Section SpringClaims.

Local Open Scope float_scope.




End SpringClaims.

Section ConfiguredSprings.

Local Open Scope float_scope.

(** C10: for both device classes the configured spring parameters
    satisfy friction^2 < 4 * tension * mass and have a damping ratio
    strictly below 1, as binary64 numbers computed the way the code does
    and as the real numbers their decimals denote; so [springEase]
    evaluates its underdamped branch at every [t]. *)
Theorem C10_configured_springs_underdamped (M : JSMath) (s : State) (t : float) :
  let c := Sheet.getSpringConfig s in
  let r := RealSpring.getSpringConfig (isMobile s) in
  (c = {| Sheet.tension := 0.4; Sheet.friction := 0.7; Sheet.mass := 0.8 |}
   \/ c = {| Sheet.tension := 0.3; Sheet.friction := 0.8; Sheet.mass := 1.0 |})
  /\ (Sheet.friction c * Sheet.friction c <? 4 * Sheet.tension c * Sheet.mass c) = true
  /\ (zetaOf c <? 1) = true
  /\ springEase M c t = springEaseUnderdamped M c t
  /\ (RealSpring.friction r * RealSpring.friction r
      < 4 * RealSpring.tension r * RealSpring.mass r)%R
  /\ (RealSpring.zeta r < 1)%R
  /\ forall x, RealSpring.springEase r x = Some (RealSpring.easeUnderdamped r x).
Proof.
  intros c r.
  assert (Hreal : (RealSpring.friction r * RealSpring.friction r
                   < 4 * RealSpring.tension r * RealSpring.mass r)%R).
  { unfold r. destruct (isMobile s); cbn; lra. }
  assert (Hzeta : (RealSpring.zeta r < 1)%R).
  { apply RealSpringFacts.zeta_lt_1_iff; [apply RealSpringFacts.valid_configured | exact Hreal]. }
  assert (Hfloat : (zetaOf c <? 1) = true).
  { unfold c, Sheet.getSpringConfig. destruct (isMobile s); reflexivity. }
  split; [unfold c, Sheet.getSpringConfig; destruct (isMobile s); auto |].
  split; [unfold c, Sheet.getSpringConfig; destruct (isMobile s); reflexivity |].
  split; [exact Hfloat |].
  split; [unfold springEase, springEaseUnderdamped; rewrite Hfloat; reflexivity |].
  split; [exact Hreal |]. split; [exact Hzeta |].
  intros x. apply RealSpringFacts.springEase_underdamped;
    [apply RealSpringFacts.valid_configured | exact Hzeta].
Qed.

End ConfiguredSprings.

(** ** Further properties of the component *)

(** *** Viewport classification and the configuration table *)

Section Configuration.

Import SpecFloat.
Local Open Scope string_scope.
Local Open Scope float_scope.

Lemma ltb_excludes_leb (x c : float) : (x <? c) = true -> (c <=? x) = false.
Proof.
  rewrite ltb_spec, leb_spec. unfold SFltb, SFleb.
  rewrite (SFcompare_antisym (Prim2SF x) (Prim2SF c)).
  destruct (SFcompare (Prim2SF x) (Prim2SF c)) as [[ | | ] |]; cbn; congruence.
Qed.

Lemma desktop_not_mobile (w : float) :
  (w <? 768) = true -> (1024 <=? w) = true -> False.
Proof.
  rewrite ltb_spec, leb_spec. unfold SFltb, SFleb.
  change (Prim2SF 768) with (S754_finite false 6755399441055744 (-43)).
  change (Prim2SF 1024) with (S754_finite false 4503599627370496 (-42)).
  destruct (Prim2SF w) as [sw | sw | | sw mw ew]; unfold SFcompare.
  - destruct sw; discriminate.
  - destruct sw; discriminate.
  - discriminate.
  - destruct sw; try discriminate.
    destruct (Z.compare_spec ew (-43)) as [E1 | E1 | E1];
      destruct (Z.compare_spec (-42) ew) as [E2 | E2 | E2];
      try discriminate; try lia.
Qed.

(** X1: whatever width and height [handleResize] receives (NaN and
    infinities included), it never sets the mobile and the tablet flag
    together, it sets neither for a width of at least 1024, and of two
    resizes in a row only the last one shows in the viewport cells. *)
Theorem handleResize_device_class (w h w0 h0 : float) (s : State) :
  let s' := handleResize w h s in
  (isMobile s' && isTablet s') = false
  /\ ((1024 <=? w) = true -> isMobile s' = false /\ isTablet s' = false)
  /\ handleResize w h (handleResize w0 h0 s) = s'.
Proof.
  cbn. unfold BREAKPOINTS_mobile, BREAKPOINTS_tablet. split; [| split].
  - destruct (w <? 768) eqn:Hm; [| reflexivity].
    rewrite (ltb_excludes_leb _ _ Hm). reflexivity.
  - intros Hd.
    assert (Ht : (w <? 1024) = false).
    { destruct (w <? 1024) eqn:E; [| reflexivity].
      rewrite (ltb_excludes_leb _ _ E) in Hd. discriminate Hd. }
    rewrite Ht, andb_false_r. split; [| reflexivity].
    destruct (w <? 768) eqn:Hm; [| reflexivity].
    exfalso. exact (desktop_not_mobile w Hm Hd).
  - reflexivity.
Qed.

Lemma handleResize_device_class_witness :
  isMobile (handleResize 1280 800 restingState) = false
  /\ isTablet (handleResize 1280 800 restingState) = false.
Proof.
  destruct (handleResize_device_class 1280 800 0 0 restingState) as (_ & Hd & _).
  apply Hd. reflexivity.
Defined.

Lemma not_member_eqb (x : string) :
  ~ In x snapPointOrder ->
  String.eqb "closed" x = false /\ String.eqb "half-open" x = false
  /\ String.eqb "fully-open" x = false.
Proof.
  intros H. repeat split; apply String.eqb_neq; intros E; apply H; subst x; cbn; auto.
Qed.

(** The keys the literal of [getSnapPointConfig] lists, and the unit of
    each height. *)
Lemma config_table (s : State) (key : string) :
  (In key snapPointOrder <->
   exists config, property (snapPointConfig s) key = Some config)
  /\ (forall config, property (snapPointConfig s) key = Some config ->
      unit (height config) = if String.eqb key "closed" then Pixel else Percent).
Proof.
  unfold snapPointConfig, getSnapPointConfig.
  destruct (String.eqb_spec "closed" key) as [<- | N0].
  { split; [split; [destruct (isTablet s); cbn; eauto | cbn; auto] |].
    intros config H.
    destruct (isTablet s), (isMobile s); cbn in H; inversion H; reflexivity. }
  destruct (String.eqb_spec "half-open" key) as [<- | N1].
  { split; [split; [destruct (isTablet s); cbn; eauto | cbn; auto] |].
    intros config H.
    destruct (isTablet s), (isMobile s); cbn in H; inversion H; reflexivity. }
  destruct (String.eqb_spec "fully-open" key) as [<- | N2].
  { split; [split; [destruct (isTablet s); cbn; eauto | cbn; auto] |].
    intros config H.
    destruct (isTablet s), (isMobile s); cbn in H; inversion H; reflexivity. }
  assert (Hnone : forall obj,
            property (if isTablet s
                      then assignHeight (assignHeight obj "half-open" (pct 55))
                             "fully-open" (pct 92)
                      else obj) key = property obj key).
  { intros obj. destruct (isTablet s); [| reflexivity].
    assert (Hassign : forall o k h, property (assignHeight o k h) key
                                    = match property o key with
                                      | Some c => if String.eqb k key
                                                  then Some (withHeight h c)
                                                  else Some c
                                      | None => None
                                      end).
    { intros o k h. induction o as [| [k0 v0] o IH]; [reflexivity |].
      cbn [assignHeight]. destruct (String.eqb_spec k0 k) as [-> | Nk].
      - cbn [property]. destruct (String.eqb k key);
          [reflexivity | destruct (property o key); reflexivity].
      - cbn [property]. destruct (String.eqb_spec k0 key) as [-> | Nk0].
        + destruct (String.eqb_spec k key) as [-> | _]; [contradiction | reflexivity].
        + exact IH. }
    rewrite !Hassign.
    destruct (property obj key); [| reflexivity].
    rewrite (proj2 (String.eqb_neq _ _) N1), (proj2 (String.eqb_neq _ _) N2).
    reflexivity. }
  rewrite Hnone. cbn [property].
  rewrite (proj2 (String.eqb_neq _ _) N0), (proj2 (String.eqb_neq _ _) N1),
    (proj2 (String.eqb_neq _ _) N2).
  split; [split |].
  - intros [E | [E | [E | []]]]; congruence.
  - intros (config & H). discriminate H.
  - intros config H. discriminate H.
Qed.


End Configuration.

(** *** What every handler leaves true *)

Section Outcomes.

Local Open Scope string_scope.
Local Open Scope float_scope.

Variable M : JSMath.
Variable p : Props.

Lemma indexOf_absent (x : string) :
  indexOf snapPointOrder x = (-1)%Z -> ~ In x snapPointOrder.
Proof.
  unfold indexOf, snapPointOrder. cbn [indexOfFrom].
  destruct (String.eqb_spec "closed" x) as [E0 | N0]; [discriminate |].
  destruct (String.eqb_spec "half-open" x) as [E1 | N1]; [discriminate |].
  destruct (String.eqb_spec "fully-open" x) as [E2 | N2]; [discriminate |].
  intros _ [E | [E | [E | []]]]; congruence.
Qed.

(** The result of [animateToSnapPoint], read backwards. *)
Lemma animateToSnapPoint_inv (s s' : State) (now : float) (target : string) :
  animateToSnapPoint s now target = Some s' ->
  (isAnimating s = true /\ s' = s)
  \/ (isAnimating s = false
      /\ exists targetConfig currentConfig',
           property (snapPointConfig s) target = Some targetConfig
           /\ property (snapPointConfig s) (currentSnapPoint s) = Some currentConfig'
           /\ s' = setAnimationRef (Some (requestedAnimation s now target))
                     (setAnimationProgress 0
                     (setIsAnimating true
                     (setTargetHeight (height targetConfig)
                     (setStartHeight (height currentConfig') s))))).
Proof.
  unfold animateToSnapPoint. destruct (isAnimating s).
  - intros H. inversion H. auto.
  - destruct (property (snapPointConfig s) target) as [tc |]; [| discriminate].
    destruct (property (snapPointConfig s) (currentSnapPoint s)) as [cc |];
      [| discriminate].
    intros H. inversion H. right. split; [reflexivity |]. exists tc, cc. auto.
Qed.

(** What a keyboard or button command does: nothing, a close request,
    or one call of [animateToSnapPoint] with a snap point of the fixed
    sequence that, except for Home, End, Minimize and Maximize, differs
    from the current snap point. *)
Lemma command_outcome (s : State) (e : Event) :
  wellFormed e = true -> isCommand e = true ->
  step M p e s = Some s
  \/ step M p e s = Some (onClose s)
  \/ exists now target,
       In target snapPointOrder
       /\ (guardedRequest e = true -> target <> currentSnapPoint s)
       /\ step M p e s = animateToSnapPoint s now target.
Proof.
  intros Hwf Hc. destruct e; try discriminate Hc; cbn [step].
  - (* KeyDown *)
    unfold handleKeyDown. destruct (negb (isOpen p)); [auto |].
    destruct (String.eqb key "Escape").
    { destruct (closeOnEscape p); [| auto].
      destruct (String.eqb_spec (currentSnapPoint s) "closed") as [E | N]; [auto |].
      right; right. exists now, "closed". cbn. repeat split; auto. }
    destruct (String.eqb key "ArrowUp").
    { destruct (indexOf_cases (currentSnapPoint s)) as [[E C] | [[E C] | [[E C] | E]]];
        rewrite E; cbn; auto.
      - right; right. exists now, "half-open". rewrite C. cbn.
        repeat split; auto; discriminate.
      - right; right. exists now, "fully-open". rewrite C. cbn.
        repeat split; auto; discriminate.
      - right; right. exists now, "closed". cbn. repeat split; auto.
        intros _ Heq. apply (indexOf_absent _ E). rewrite <- Heq. cbn. auto. }
    destruct (String.eqb key "ArrowDown").
    { destruct (indexOf_cases (currentSnapPoint s)) as [[E C] | [[E C] | [[E C] | E]]];
        rewrite E; cbn; auto.
      - right; right. exists now, "closed". rewrite C. cbn.
        repeat split; auto; discriminate.
      - right; right. exists now, "half-open". rewrite C. cbn.
        repeat split; auto; discriminate. }
    cbn [guardedRequest].
    destruct (String.eqb key "Home").
    { right; right. exists now, "fully-open". cbn. repeat split; auto. discriminate. }
    destruct (String.eqb key "End").
    { right; right. exists now, "closed". cbn. repeat split; auto. discriminate. }
    auto.
  - (* HandleKeyDown *)
    unfold handleHandleKeyDown. destruct (_ || _); [| auto].
    right; right. exists now, (nextSnapPoint s). unfold nextSnapPoint.
    destruct (String.eqb_spec (currentSnapPoint s) "half-open") as [E | N].
    + rewrite E. cbn. repeat split; auto; discriminate.
    + cbn. repeat split; auto; intros _ Heq; apply N; symmetry; exact Heq.
  - (* SnapPointClick *)
    unfold handleSnapPointClick.
    destruct (String.eqb_spec snapPoint (currentSnapPoint s)) as [E | N];
      [cbn; auto |].
    destruct (isAnimating s) eqn:Ha; cbn; [auto |].
    right; right. exists now, snapPoint. repeat split; auto.
    cbn [wellFormed] in Hwf. apply existsb_exists in Hwf as (x & Hx & Hxe).
    apply String.eqb_eq in Hxe. subst x. exact Hx.
  - (* OverlayClick *)
    unfold handleOverlayClick.
    destruct (String.eqb_spec (currentSnapPoint s) "closed") as [E | N]; [auto |].
    right; right. exists now, "closed". cbn. repeat split; auto.
  - unfold handleMinimize. destruct (isAnimating s); cbn; [auto |].
    right; right. exists now, "closed". cbn. repeat split; auto. discriminate.
  - unfold handleMaximize. destruct (isAnimating s); cbn; [auto |].
    right; right. exists now, "fully-open". cbn. repeat split; auto. discriminate.
  - unfold handleToggle. destruct (isAnimating s); cbn; [auto |].
    right; right. exists now, (nextSnapPoint s). unfold nextSnapPoint.
    destruct (String.eqb_spec (currentSnapPoint s) "half-open") as [E | N].
    + rewrite E. cbn. repeat split; auto; discriminate.
    + cbn. repeat split; auto; intros _ Heq; apply N; symmetry; exact Heq.
Qed.

(** What a gesture end does. *)
Lemma touchEnd_outcome (s : State) (now : float) :
  (handleTouchEnd s now = None /\ currentConfig s = None)
  \/ handleTouchEnd s now = Some s
  \/ handleTouchEnd s now = Some (onClose (setIsDragging false s))
  \/ handleTouchEnd s now = Some (setIsDragging false s)
  \/ exists target,
       In target snapPointOrder
       /\ target <> currentSnapPoint s
       /\ isAnimating s = false
       /\ handleTouchEnd s now = animateToSnapPoint (setIsDragging false s) now target.
Proof.
  unfold handleTouchEnd.
  destruct (isDragging s); cbn [negb orb]; [| auto].
  destruct (isAnimating s) eqn:Ha; [auto |].
  rewrite getCurrentHeight_idle by exact Ha.
  destruct (currentConfig s) as [config |] eqn:Hc; cbn [option_map]; [| auto].
  destruct (determineTargetSnapPoint_total s (height config) (dragVelocity s))
    as (target & -> & Hin).
  destruct (String.eqb target "closed" && String.eqb (currentSnapPoint s) "closed");
    [auto |].
  destruct (String.eqb_spec target (currentSnapPoint s)) as [E | N]; cbn [negb];
    [auto |].
  right; right; right; right. exists target. auto.
Qed.

End Outcomes.

(** *** Invariants of the reachable states *)

Section Invariants.

Local Open Scope string_scope.
Local Open Scope float_scope.

Variable M : JSMath.
Variable p : Props.

Lemma membersInv_ext (s s' : State) :
  membersInv s ->
  currentSnapPoint s' = currentSnapPoint s -> animationRef s' = animationRef s ->
  membersInv s'.
Proof. unfold membersInv. intros [H1 H2] -> ->. auto. Qed.

Lemma sessionInv_ext (s s' : State) :
  sessionInv s ->
  animationRef s' = animationRef s -> isAnimating s' = isAnimating s ->
  velocityRef s' = velocityRef s -> dragVelocity s' = dragVelocity s ->
  sessionInv s'.
Proof. unfold sessionInv. intros (H1 & H2 & H3) -> -> -> ->. auto. Qed.

Lemma request_members (s : State) (now : float) (target : string) :
  membersInv s -> In target snapPointOrder ->
  exists s', animateToSnapPoint s now target = Some s' /\ membersInv s'.
Proof.
  intros Hm Hin. destruct (isAnimating s) eqn:Ha.
  - exists s. split; [apply animateToSnapPoint_running, Ha | exact Hm].
  - destruct (config_of_member s target Hin) as (tc & Htc).
    destruct (config_of_member s (currentSnapPoint s) (proj1 Hm)) as (cc & Hcc).
    destruct (animateToSnapPoint_idle s now target tc cc Ha Htc Hcc)
      as (s' & Hs' & _ & Href & _ & _ & _ & Hcur & _).
    exists s'. split; [exact Hs' |]. split.
    + rewrite Hcur. exact (proj1 Hm).
    + intros a Hsome. rewrite Href in Hsome. inversion Hsome. exact Hin.
Qed.

Lemma request_session (s s' : State) (now : float) (target : string) :
  sessionInv s -> animateToSnapPoint s now target = Some s' -> sessionInv s'.
Proof.
  intros Hs H.
  destruct (animateToSnapPoint_inv s s' now target H)
    as [[_ ->] | (_ & tc & cc & _ & _ & ->)]; [exact Hs |].
  destruct Hs as (_ & H2 & H3). repeat split; auto.
Qed.

Lemma calculateVelocity_length (window : list Sample) (cy ct : float) :
  (List.length window <= 5)%nat ->
  (List.length (fst (calculateVelocity window cy ct)) <= 5)%nat.
Proof.
  intros H. unfold calculateVelocity. cbn [fst].
  destruct (Nat.ltb_spec 5 (List.length (window ++ [ {| y := cy; time := ct |} ]))) as [L | L].
  - rewrite length_app in L. cbn in L.
    destruct window as [| a w]; cbn in *; [lia |].
    rewrite length_app. cbn. lia.
  - exact L.
Qed.

Lemma frame_members (s : State) (t : float) : membersInv s -> membersInv (frame M t s).
Proof.
  intros Hm. unfold frame. destruct (animationRef s) as [a |] eqn:Ha; [| exact Hm].
  unfold animate. destruct (linearProgress a t <? 1).
  - split; [exact (proj1 Hm) |]. cbn. intros a' H. inversion H. subst a'.
    exact (proj2 Hm a Ha).
  - split; [exact (proj2 Hm a Ha) |]. cbn. discriminate.
Qed.

Lemma frame_session (s : State) (t : float) : sessionInv s -> sessionInv (frame M t s).
Proof.
  intros Hs. unfold frame. destruct (animationRef s) as [a |] eqn:Ha; [| exact Hs].
  destruct Hs as (H1 & H2 & H3).
  unfold animate. destruct (linearProgress a t <? 1).
  - split; [cbn; intros a' _; exact (H1 a Ha) | split; [exact H2 | exact H3]].
  - split; [cbn; discriminate | split; [cbn; lia | reflexivity]].
Qed.

Lemma step_members (s : State) (e : Event) :
  membersInv s -> wellFormed e = true ->
  exists s', step M p e s = Some s' /\ membersInv s'.
Proof.
  intros Hm Hwf. destruct (isCommand e) eqn:Hc.
  - destruct (command_outcome M p s e Hwf Hc)
      as [-> | [-> | (now & target & Hin & _ & ->)]].
    + eauto.
    + exists (onClose s). split; [reflexivity |].
      apply (membersInv_ext s); [exact Hm | reflexivity | reflexivity].
    + apply request_members; assumption.
  - destruct e; try discriminate Hc; cbn [step].
    + eexists; split; [reflexivity |].
      apply (membersInv_ext s); [exact Hm | reflexivity | reflexivity].
    + eexists; split; [reflexivity |]. unfold handleTouchStart.
      destruct (isAnimating s); [exact Hm |].
      apply (membersInv_ext s); [exact Hm | reflexivity | reflexivity].
    + eexists; split; [reflexivity |]. unfold handleTouchMove.
      destruct (negb (isDragging s) || isAnimating s); [exact Hm |].
      destruct (calculateVelocity _ _ _) as [w v].
      apply (membersInv_ext s); [exact Hm | reflexivity | reflexivity].
    + assert (Hs1 : membersInv (setIsDragging false s))
        by (apply (membersInv_ext s); [exact Hm | reflexivity | reflexivity]).
      destruct (touchEnd_outcome s now)
        as [[_ Hnone] | [-> | [-> | [-> | (target & Hin & _ & _ & ->)]]]].
      * destruct (config_of_member s _ (proj1 Hm)) as (cc & Hcc).
        unfold currentConfig in Hnone. congruence.
      * eauto.
      * eexists; split; [reflexivity |].
        apply (membersInv_ext s); [exact Hm | reflexivity | reflexivity].
      * eauto.
      * apply request_members; assumption.
    + eexists; split; [reflexivity |]. apply frame_members, Hm.
    + eexists; split; [reflexivity |]. split; [exact (proj1 Hm) |]. cbn. discriminate.
Qed.

Lemma step_session (s s' : State) (e : Event) :
  sessionInv s -> step M p e s = Some s' -> sessionInv s'.
Proof.
  intros Hs Hstep.
  assert (Hclose : sessionInv (onClose s))
    by (apply (sessionInv_ext s); auto).
  destruct e; cbn [step] in Hstep.
  - inversion Hstep. apply (sessionInv_ext s); auto.
  - inversion Hstep. unfold handleTouchStart.
    destruct (isAnimating s) eqn:Ha; [exact Hs |].
    destruct Hs as (H1 & _ & _).
    split; [exact H1 | split; [cbn; lia | reflexivity]].
  - inversion Hstep. unfold handleTouchMove.
    destruct (negb (isDragging s) || isAnimating s); [exact Hs |].
    pose proof (calculateVelocity_value (velocityRef s) clientY now) as Hv.
    pose proof (calculateVelocity_length (velocityRef s) clientY now
                  (proj1 (proj2 Hs))) as Hl.
    destruct (calculateVelocity (velocityRef s) clientY now) as [w v].
    cbn [fst snd] in Hv, Hl. destruct Hs as (H1 & _ & _).
    split; [exact H1 | split; [exact Hl | exact Hv]].
  - assert (Hs1 : sessionInv (setIsDragging false s))
      by (apply (sessionInv_ext s); auto).
    destruct (touchEnd_outcome s now)
      as [[Hn _] | [H | [H | [H | (target & _ & _ & _ & H)]]]];
      rewrite Hstep in *; try discriminate Hn.
    + inversion H. exact Hs.
    + inversion H. apply (sessionInv_ext s); auto.
    + inversion H. exact Hs1.
    + symmetry in H. exact (request_session _ _ _ _ Hs1 H).
  - destruct (command_outcome M p s (KeyDown key now) eq_refl eq_refl)
      as [H | [H | (now' & target & _ & _ & H)]];
      cbn [step] in H; rewrite Hstep in H.
    + inversion H. exact Hs.
    + inversion H. exact Hclose.
    + symmetry in H. exact (request_session _ _ _ _ Hs H).
  - destruct (command_outcome M p s (HandleKeyDown key now) eq_refl eq_refl)
      as [H | [H | (now' & target & _ & _ & H)]];
      cbn [step] in H; rewrite Hstep in H.
    + inversion H. exact Hs.
    + inversion H. exact Hclose.
    + symmetry in H. exact (request_session _ _ _ _ Hs H).
  - unfold handleSnapPointClick in Hstep.
    destruct (negb (String.eqb snapPoint (currentSnapPoint s)) && negb (isAnimating s)).
    + exact (request_session _ _ _ _ Hs Hstep).
    + inversion Hstep. subst s'. exact Hs.
  - destruct (command_outcome M p s (OverlayClick now) eq_refl eq_refl)
      as [H | [H | (now' & target & _ & _ & H)]];
      cbn [step] in H; rewrite Hstep in H.
    + inversion H. exact Hs.
    + inversion H. exact Hclose.
    + symmetry in H. exact (request_session _ _ _ _ Hs H).
  - destruct (command_outcome M p s (Minimize now) eq_refl eq_refl)
      as [H | [H | (now' & target & _ & _ & H)]];
      cbn [step] in H; rewrite Hstep in H.
    + inversion H. exact Hs.
    + inversion H. exact Hclose.
    + symmetry in H. exact (request_session _ _ _ _ Hs H).
  - destruct (command_outcome M p s (Maximize now) eq_refl eq_refl)
      as [H | [H | (now' & target & _ & _ & H)]];
      cbn [step] in H; rewrite Hstep in H.
    + inversion H. exact Hs.
    + inversion H. exact Hclose.
    + symmetry in H. exact (request_session _ _ _ _ Hs H).
  - destruct (command_outcome M p s (Toggle now) eq_refl eq_refl)
      as [H | [H | (now' & target & _ & _ & H)]];
      cbn [step] in H; rewrite Hstep in H.
    + inversion H. exact Hs.
    + inversion H. exact Hclose.
    + symmetry in H. exact (request_session _ _ _ _ Hs H).
  - inversion Hstep. apply frame_session, Hs.
  - inversion Hstep. destruct Hs as (_ & H2 & H3).
    split; [cbn; discriminate | split; [exact H2 | exact H3]].
Qed.

Lemma run_members (events : list Event) (s : State) :
  membersInv s -> forallb wellFormed events = true ->
  exists s', run M p events s = Some s' /\ membersInv s'.
Proof.
  revert s. induction events as [| e events IH]; intros s Hm Hwf.
  - exists s. auto.
  - cbn in Hwf. apply andb_true_iff in Hwf as [He Hwf].
    destruct (step_members s e Hm He) as (s1 & Hstep & Hm1).
    destruct (IH s1 Hm1 Hwf) as (s' & Hrun & Hm').
    exists s'. cbn [run]. rewrite Hstep. auto.
Qed.

Lemma run_session (events : list Event) (s s' : State) :
  sessionInv s -> run M p events s = Some s' -> sessionInv s'.
Proof.
  revert s. induction events as [| e events IH]; intros s Hs Hrun.
  - inversion Hrun. subst s'. exact Hs.
  - cbn [run] in Hrun. destruct (step M p e s) as [s1 |] eqn:Hstep; [| discriminate].
    exact (IH s1 (step_session s s1 e Hs Hstep) Hrun).
Qed.

Lemma mount_session (w h : float) : sessionInv (mount p w h).
Proof. split; [cbn; discriminate | split; [cbn; lia | reflexivity]]. Qed.

Lemma mount_members (w h : float) :
  In (defaultSnapPoint p) snapPointOrder -> membersInv (mount p w h).
Proof. intros H. split; [exact H |]. cbn. discriminate. Qed.

End Invariants.

Section ReachableStates.

Import SpecFloat.
Local Open Scope string_scope.
Local Open Scope float_scope.

Lemma getCurrentHeight_defined (s : State) :
  In (currentSnapPoint s) snapPointOrder -> exists h, getCurrentHeight s = Some h.
Proof.
  intros Hin. destruct (isAnimating s) eqn:Ha.
  - rewrite getCurrentHeight_running by exact Ha. eauto.
  - rewrite getCurrentHeight_idle by exact Ha.
    destruct (config_of_member s _ Hin) as (cc & Hcc).
    unfold currentConfig. rewrite Hcc. cbn. eauto.
Qed.

(** X3: when neither the target nor the current snap point is a
    property name inherited from [Object.prototype] (at such a name the
    table reads as an inherited function or object, whose [height] is
    [undefined], and nothing is thrown): [animateToSnapPoint] fails with
    the [TypeError] exactly when no transition is running and the target
    or the current snap point is not one of [closed], [half-open],
    [fully-open]; a request for such an unknown snap point is therefore
    an error while idle and a silent no-op while running. *)
Theorem animateToSnapPoint_undefined_config (s : State) (now : float) (target : string) :
  ~ In target objectPrototypeKeys ->
  ~ In (currentSnapPoint s) objectPrototypeKeys ->
  (animateToSnapPoint s now target = None
   <-> isAnimating s = false
       /\ (~ In target snapPointOrder \/ ~ In (currentSnapPoint s) snapPointOrder)).
Proof.
  intros _ _.
  pose proof (proj1 (config_table s target)) as Ht.
  pose proof (proj1 (config_table s (currentSnapPoint s))) as Hc.
  unfold animateToSnapPoint. destruct (isAnimating s).
  - split; [discriminate | intros [H _]; discriminate H].
  - destruct (property (snapPointConfig s) target) as [tc |] eqn:Etc.
    + destruct (property (snapPointConfig s) (currentSnapPoint s)) as [cc |] eqn:Ecc.
      * split; [discriminate |]. intros [_ [H | H]]; exfalso; apply H.
        -- apply Ht. eauto.
        -- apply Hc. eauto.
      * split; [| reflexivity]. intros _. split; [reflexivity |]. right.
        intros Hin. apply Hc in Hin as (c & Hsome). discriminate Hsome.
    + split; [| reflexivity]. intros _. split; [reflexivity |]. left.
      intros Hin. apply Ht in Hin as (c & Hsome). discriminate Hsome.
Qed.

Lemma animateToSnapPoint_undefined_config_witness :
  animateToSnapPoint restingState 0 "quarter-open" = None.
Proof.
  assert (Htarget : ~ In "quarter-open" objectPrototypeKeys).
  { cbn. intros H. repeat (destruct H as [H | H]; [discriminate H |]). exact H. }
  assert (Hcurrent : ~ In (currentSnapPoint restingState) objectPrototypeKeys).
  { cbn. intros H. repeat (destruct H as [H | H]; [discriminate H |]). exact H. }
  apply (animateToSnapPoint_undefined_config restingState 0 "quarter-open"
           Htarget Hcurrent).
  split; [reflexivity |]. left. intros [H | [H | [H | []]]]; discriminate H.
Defined.

(** X4: a sheet mounted with one of the three snap points as default
    never throws: every sequence of events the rendered component can
    produce runs to a state, and in that state the current snap point is
    one of the three and [getCurrentHeight()] returns a length. *)
Theorem run_never_throws (M : JSMath) (p : Props) (w h : float) (events : list Event) :
  In (defaultSnapPoint p) snapPointOrder ->
  forallb wellFormed events = true ->
  exists s,
    run M p events (mount p w h) = Some s
    /\ In (currentSnapPoint s) snapPointOrder
    /\ exists displayed, getCurrentHeight s = Some displayed.
Proof.
  intros Hd Hwf.
  destruct (run_members M p events (mount p w h) (mount_members p w h Hd) Hwf)
    as (s & Hrun & Hm).
  exists s. split; [exact Hrun |]. split; [exact (proj1 Hm) |].
  apply getCurrentHeight_defined, (proj1 Hm).
Qed.

Lemma run_never_throws_witness :
  exists s,
    run linearMath demoProps
      [TouchStart 400 0; TouchMove 380 10; TouchEnd 20; Frame 700;
       SnapPointClick "closed" 800; Resize 375 667; Frame 1500; KeyDown "ArrowDown" 1600]
      (mount demoProps 1280 800) = Some s
    /\ In (currentSnapPoint s) snapPointOrder.
Proof.
  destruct (run_never_throws linearMath demoProps 1280 800
              [TouchStart 400 0; TouchMove 380 10; TouchEnd 20; Frame 700;
               SnapPointClick "closed" 800; Resize 375 667; Frame 1500;
               KeyDown "ArrowDown" 1600]
              (or_intror (or_introl eq_refl)) eq_refl)
    as (s & Hrun & Hin & _).
  exists s. split; assumption.
Defined.

(** X5: in every state the component can reach, a frame callback is
    scheduled only while a transition is running; when idle, a frame
    changes nothing. *)
Theorem idle_has_no_callback (M : JSMath) (p : Props) (w h : float) (s : State)
  (t : float) :
  reachable M p w h s ->
  Idle s ->
  animationRef s = None /\ frame M t s = s.
Proof.
  intros (events & Hrun) Hidle. unfold Idle in Hidle.
  destruct (run_session M p events _ s (mount_session p w h) Hrun) as (H1 & _).
  assert (Hnone : animationRef s = None).
  { destruct (animationRef s) as [a |] eqn:Ha; [| reflexivity].
    rewrite (H1 a eq_refl) in Hidle. discriminate Hidle. }
  split; [exact Hnone |]. unfold frame. rewrite Hnone. reflexivity.
Qed.

Lemma idle_has_no_callback_witness :
  animationRef restingState = None /\ frame linearMath 100 restingState = restingState.
Proof.
  apply (idle_has_no_callback linearMath demoProps 1280 800 restingState 100).
  - exists []. vm_compute. reflexivity.
  - reflexivity.
Defined.

(** X6: in every state the component can reach, the velocity window
    holds at most five samples and [dragVelocity] is the velocity of that
    window (0 for fewer than two samples or without positive elapsed
    time), across session starts, moves and completed transitions. *)
Theorem reachable_velocity_window (M : JSMath) (p : Props) (w h : float) (s : State) :
  reachable M p w h s ->
  (List.length (velocityRef s) <= 5)%nat
  /\ dragVelocity s = windowVelocity (velocityRef s).
Proof.
  intros (events & Hrun).
  destruct (run_session M p events _ s (mount_session p w h) Hrun) as (_ & H2 & H3).
  auto.
Qed.

Lemma reachable_velocity_window_witness :
  (List.length (velocityRef draggingState) <= 5)%nat
  /\ dragVelocity draggingState = windowVelocity (velocityRef draggingState).
Proof.
  apply (reachable_velocity_window linearMath demoProps 1280 800 draggingState).
  exists [TouchStart 400 0; TouchMove 380 10]. vm_compute. reflexivity.
Defined.

(** After the cleanup effect has withdrawn the frame callback of a
    running transition, no event changes the animator. *)
Lemma step_after_unmount (M : JSMath) (p : Props) (s : State) (e : Event) :
  isAnimating s = true -> animationRef s = None ->
  exists s',
    step M p e s = Some s'
    /\ isAnimating s' = true /\ animationRef s' = None
    /\ settled s' = settled s /\ currentSnapPoint s' = currentSnapPoint s
    /\ animationProgress s' = animationProgress s.
Proof.
  intros H Ha. destruct (isCommand e) eqn:Hc.
  - destruct (command_running M p s e H Hc) as [-> | ->];
      eexists; split; try reflexivity; cbn; auto 10.
  - destruct e; try discriminate Hc; cbn [step].
    + eexists; split; [reflexivity |]. cbn. auto 10.
    + unfold handleTouchStart. rewrite H. eexists; split; [reflexivity |]. auto 10.
    + unfold handleTouchMove. rewrite H, orb_true_r.
      eexists; split; [reflexivity |]. auto 10.
    + unfold handleTouchEnd. rewrite H, orb_true_r.
      eexists; split; [reflexivity |]. auto 10.
    + unfold frame. rewrite Ha. eexists; split; [reflexivity |]. auto 10.
    + eexists; split; [reflexivity |]. cbn. auto 10.
Qed.

(** X7: when the component unmounts while a transition is running, the
    frame callback is withdrawn and whatever happens afterwards the
    transition makes no further progress: no settle notification is
    added, the current snap point and the animation progress stay as
    they were, and no callback is scheduled again. *)
Theorem unmount_stops_transition (M : JSMath) (p : Props) (s : State)
  (events : list Event) :
  Running s ->
  exists s',
    run M p events (unmount s) = Some s'
    /\ settled s' = settled s
    /\ currentSnapPoint s' = currentSnapPoint s
    /\ animationProgress s' = animationProgress s
    /\ animationRef s' = None.
Proof.
  unfold Running. intros H.
  assert (Hgen : forall s0,
            isAnimating s0 = true -> animationRef s0 = None ->
            exists s',
              run M p events s0 = Some s'
              /\ settled s' = settled s0
              /\ currentSnapPoint s' = currentSnapPoint s0
              /\ animationProgress s' = animationProgress s0
              /\ animationRef s' = None).
  { induction events as [| e events IH]; intros s0 H0 Ha0.
    - exists s0. cbn. auto.
    - destruct (step_after_unmount M p s0 e H0 Ha0)
        as (s1 & Hstep & H1 & Ha1 & Hs1 & Hc1 & Hp1).
      destruct (IH s1 H1 Ha1) as (s' & Hrun & Hs' & Hc' & Hp' & Ha').
      exists s'. cbn [run]. rewrite Hstep.
      repeat split; try assumption; congruence. }
  apply (Hgen (unmount s)); [exact H | reflexivity].
Qed.

Lemma unmount_stops_transition_witness :
  exists s',
    run linearMath demoProps [Frame 300; KeyDown "End" 400; Frame 700]
      (unmount runningState) = Some s'
    /\ settled s' = settled runningState
    /\ currentSnapPoint s' = "half-open".
Proof.
  destruct (unmount_stops_transition linearMath demoProps runningState
              [Frame 300; KeyDown "End" 400; Frame 700] eq_refl)
    as (s' & Hrun & Hs & Hc & _).
  exists s'. split; [exact Hrun |]. split; [exact Hs |]. rewrite Hc. reflexivity.
Defined.

Lemma compare_one_eq (x : float) :
  SFcompare (Prim2SF x) (Prim2SF 1) = Some Eq -> x = 1.
Proof.
  intros H. apply Prim2SF_inj. revert H.
  change (Prim2SF 1) with (S754_finite false 4503599627370496 (-52)).
  destruct (Prim2SF x) as [sx | sx | | sx mx ex]; unfold SFcompare.
  - discriminate.
  - destruct sx; discriminate.
  - discriminate.
  - destruct sx; [discriminate |].
    destruct (Z.compare_spec ex (-52)) as [E | E | E]; try discriminate.
    destruct (Pos.compare_cont Eq mx 4503599627370496) eqn:Hm; try discriminate.
    intros _. apply Pos.compare_eq in Hm. rewrite E, Hm. reflexivity.
Qed.

Lemma compare_one_none (x : float) :
  SFcompare (Prim2SF x) (Prim2SF 1) = None -> is_nan x = true.
Proof.
  change (Prim2SF 1) with (S754_finite false 4503599627370496 (-52)).
  unfold is_nan. rewrite eqb_spec.
  destruct (Prim2SF x) as [sx | sx | | sx mx ex]; unfold SFcompare.
  - discriminate.
  - destruct sx; discriminate.
  - reflexivity.
  - destruct sx; discriminate.
Qed.

(** X8: the linear progress handed to [springEase] is never above 1, and
    when a frame completes the transition (progress not below 1) the
    progress is exactly 1, or NaN when the frame time or the start time
    is not a number. *)
Theorem linearProgress_bound (a : Animation) (t : float) :
  (1 <? linearProgress a t) = false
  /\ (completes a t = true ->
      linearProgress a t = 1 \/ is_nan (linearProgress a t) = true).
Proof.
  unfold completes, linearProgress, Math_min.
  set (x := (t - startTime a) / duration a).
  destruct (is_nan x || is_nan 1); [split; [reflexivity | auto] |].
  destruct (x <? 1) eqn:E1.
  - split; [apply ltb_antisym, E1 |]. rewrite E1. discriminate.
  - destruct (1 <? x) eqn:E2; [split; [reflexivity | auto] |].
    assert (Hx : is_nan x = true \/ x = 1).
    { revert E1 E2. rewrite !ltb_spec. unfold SFltb.
      rewrite (SFcompare_antisym (Prim2SF x) (Prim2SF 1)).
      destruct (SFcompare (Prim2SF x) (Prim2SF 1)) as [[ | | ] |] eqn:Ec;
        cbn; try discriminate; intros _ _.
      - right. apply compare_one_eq, Ec.
      - left. apply compare_one_none, Ec. }
    destruct (get_sign x).
    + split; [exact E2 |]. intros _. destruct Hx as [Hn | ->]; auto.
    + split; [reflexivity | auto].
Qed.

Lemma linearProgress_bound_witness :
  linearProgress runningAnimation 700 = 1.
Proof.
  destruct (linearProgress_bound runningAnimation 700) as (_ & H).
  destruct (H eq_refl) as [E | E]; [exact E | discriminate E].
Defined.

End ReachableStates.

(** *** Requests followed to completion *)

Section Compositions.

Local Open Scope string_scope.
Local Open Scope float_scope.

Variable M : JSMath.
Variable p : Props.

Lemma requestedAnimation_ext (s s' : State) (now : float) (target : string) :
  isMobile s' = isMobile s ->
  requestedAnimation s' now target = requestedAnimation s now target.
Proof. unfold requestedAnimation, getSpringConfig. intros ->. reflexivity. Qed.

(** A request made while idle, followed by a completing frame. *)
Lemma request_complete (s : State) (now tf : float) (target : string) :
  isAnimating s = false ->
  In target snapPointOrder ->
  In (currentSnapPoint s) snapPointOrder ->
  completes (requestedAnimation s now target) tf = true ->
  exists s1,
    animateToSnapPoint s now target = Some s1
    /\ isAnimating s1 = true
    /\ isAnimating (frame M tf s1) = false
    /\ currentSnapPoint (frame M tf s1) = target
    /\ settled (frame M tf s1) = (settled s ++ [target])%list
    /\ closeRequests (frame M tf s1) = closeRequests s
    /\ isMobile (frame M tf s1) = isMobile s.
Proof.
  intros Hidle Ht Hc Hdone.
  destruct (config_of_member s target Ht) as (tc & Htc).
  destruct (config_of_member s _ Hc) as (cc & Hcc).
  unfold animateToSnapPoint. rewrite Hidle, Htc, Hcc.
  eexists. split; [reflexivity |]. split; [reflexivity |].
  unfold frame. cbn [animationRef setAnimationRef].
  fold (requestedAnimation s now target).
  unfold animate. unfold completes in Hdone.
  apply negb_true_iff in Hdone. rewrite Hdone.
  cbn. auto.
Qed.

Lemma arrowUp_request (s : State) (now : float) (i : nat) (up : string) :
  isOpen p = true ->
  nth_error snapPointOrder i = Some (currentSnapPoint s) ->
  nth_error snapPointOrder (S i) = Some up ->
  handleKeyDown p s "ArrowUp" now = animateToSnapPoint s now up.
Proof.
  intros Hopen Hi Hup. unfold handleKeyDown. rewrite Hopen.
  rewrite (indexOf_member i _ Hi).
  destruct i as [| [| i]]; cbn in Hi, Hup; inversion Hup; [reflexivity | reflexivity |].
  destruct i; discriminate.
Qed.

Lemma arrowDown_request (s : State) (now : float) (i : nat) (down : string) :
  isOpen p = true ->
  nth_error snapPointOrder (S i) = Some (currentSnapPoint s) ->
  nth_error snapPointOrder i = Some down ->
  handleKeyDown p s "ArrowDown" now = animateToSnapPoint s now down.
Proof.
  intros Hopen Hi Hdown. unfold handleKeyDown. rewrite Hopen.
  rewrite (indexOf_member (S i) _ Hi).
  destruct i as [| [| i]]; cbn in Hi, Hdown; inversion Hdown;
    [reflexivity | reflexivity |].
  destruct i; discriminate.
Qed.

End Compositions.

Section CompositionClaims.

Local Open Scope string_scope.
Local Open Scope float_scope.

(** X9: from an idle sheet below the top of the sequence, the ArrowUp
    key followed by a completing frame, then the ArrowDown key followed
    by a completing frame, brings the sheet back to the snap point it
    started from; the two snap points reached are announced in that
    order and no close request is made. *)
Theorem arrow_round_trip (M : JSMath) (p : Props) (s : State)
  (now1 t1 now2 t2 : float) (i : nat) (up : string) :
  isOpen p = true ->
  Idle s ->
  nth_error snapPointOrder i = Some (currentSnapPoint s) ->
  nth_error snapPointOrder (S i) = Some up ->
  completes (requestedAnimation s now1 up) t1 = true ->
  completes (requestedAnimation s now2 (currentSnapPoint s)) t2 = true ->
  exists s',
    run M p [KeyDown "ArrowUp" now1; Frame t1; KeyDown "ArrowDown" now2; Frame t2] s
      = Some s'
    /\ Idle s'
    /\ currentSnapPoint s' = currentSnapPoint s
    /\ settled s' = (settled s ++ [up; currentSnapPoint s])%list
    /\ closeRequests s' = closeRequests s.
Proof.
  unfold Idle. intros Hopen Hidle Hi Hup Hd1 Hd2.
  assert (Hcur : In (currentSnapPoint s) snapPointOrder)
    by (eapply nth_error_In; exact Hi).
  assert (Hupin : In up snapPointOrder) by (eapply nth_error_In; exact Hup).
  destruct (request_complete M s now1 t1 up Hidle Hupin Hcur Hd1)
    as (s1 & Hreq1 & _ & Hidle2 & Hcur2 & Hset2 & Hclose2 & Hmob2).
  set (s2 := frame M t1 s1) in *.
  assert (Hup2 : nth_error snapPointOrder (S i) = Some (currentSnapPoint s2))
    by (rewrite Hcur2; exact Hup).
  rewrite <- (requestedAnimation_ext s s2 now2 _ Hmob2) in Hd2.
  assert (Hin2 : In (currentSnapPoint s2) snapPointOrder)
    by (rewrite Hcur2; exact Hupin).
  destruct (request_complete M s2 now2 t2 (currentSnapPoint s) Hidle2 Hcur Hin2 Hd2)
    as (s3 & Hreq3 & _ & Hidle4 & Hcur4 & Hset4 & Hclose4 & _).
  exists (frame M t2 s3).
  cbn [run step].
  rewrite (arrowUp_request p s now1 i up Hopen Hi Hup), Hreq1.
  fold s2.
  rewrite (arrowDown_request p s2 now2 i (currentSnapPoint s) Hopen Hup2 Hi), Hreq3.
  split; [reflexivity |]. split; [exact Hidle4 |]. split; [exact Hcur4 |].
  split; [| congruence].
  rewrite Hset4, Hset2, <- app_assoc. reflexivity.
Qed.

Lemma arrow_round_trip_witness :
  exists s',
    run linearMath demoProps
      [KeyDown "ArrowUp" 0; Frame 600; KeyDown "ArrowDown" 1000; Frame 1600]
      restingState = Some s'
    /\ currentSnapPoint s' = "half-open"
    /\ settled s' = ["fully-open"; "half-open"].
Proof.
  destruct (arrow_round_trip linearMath demoProps restingState 0 600 1000 1600
              1 "fully-open" eq_refl eq_refl eq_refl eq_refl eq_refl eq_refl)
    as (s' & Hrun & _ & Hcur & Hset & _).
  exists s'. split; [exact Hrun |]. split; [exact Hcur | exact Hset].
Defined.

(** X10: dismissal by the Escape key takes two stages.  On an idle sheet
    that is not at [closed], Escape makes no close request but starts
    the transition to [closed]; once that has completed, a second Escape
    makes exactly one close request and starts no transition. *)
Theorem escape_two_stage (M : JSMath) (p : Props) (s : State) (now1 t1 now2 : float) :
  isOpen p = true ->
  closeOnEscape p = true ->
  Idle s ->
  In (currentSnapPoint s) snapPointOrder ->
  currentSnapPoint s <> "closed" ->
  completes (requestedAnimation s now1 "closed") t1 = true ->
  exists s1 s',
    step M p (KeyDown "Escape" now1) s = Some s1
    /\ Running s1 /\ closeRequests s1 = closeRequests s
    /\ run M p [KeyDown "Escape" now1; Frame t1; KeyDown "Escape" now2] s = Some s'
    /\ Idle s'
    /\ currentSnapPoint s' = "closed"
    /\ settled s' = (settled s ++ ["closed"])%list
    /\ closeRequests s' = S (closeRequests s).
Proof.
  unfold Idle, Running. intros Hopen Hesc Hidle Hcur Hne Hdone.
  assert (Hkey : forall s0 now,
            currentSnapPoint s0 <> "closed" ->
            handleKeyDown p s0 "Escape" now = animateToSnapPoint s0 now "closed").
  { intros s0 now N. unfold handleKeyDown. rewrite Hopen, Hesc. cbn.
    destruct (String.eqb_spec (currentSnapPoint s0) "closed"); [contradiction |].
    reflexivity. }
  destruct (request_complete M s now1 t1 "closed" Hidle
              (or_introl eq_refl) Hcur Hdone)
    as (s1 & Hreq & Hrun1 & Hidle2 & Hcur2 & Hset2 & Hclose2 & _).
  exists s1, (onClose (frame M t1 s1)).
  cbn [run step]. rewrite (Hkey s now1 Hne), Hreq.
  split; [reflexivity |]. split; [exact Hrun1 |].
  split.
  { destruct (animateToSnapPoint_inv s s1 now1 "closed" Hreq)
      as [[Ha _] | (_ & tc & cc & _ & _ & ->)]; [congruence | reflexivity]. }
  unfold handleKeyDown. rewrite Hopen, Hesc, Hcur2. cbn.
  repeat split; auto; try (rewrite Hclose2; reflexivity).
Qed.

Lemma escape_two_stage_witness :
  exists s',
    run linearMath demoProps [KeyDown "Escape" 0; Frame 600; KeyDown "Escape" 700]
      restingState = Some s'
    /\ currentSnapPoint s' = "closed"
    /\ closeRequests s' = 1%nat.
Proof.
  destruct (escape_two_stage linearMath demoProps restingState 0 600 700
              eq_refl eq_refl eq_refl (or_intror (or_introl eq_refl))
              ltac:(discriminate) eq_refl)
    as (s1 & s' & _ & _ & _ & Hrun & _ & Hcur & _ & Hclose).
  exists s'. split; [exact Hrun |]. split; [exact Hcur | exact Hclose].
Defined.

(** X11: apart from the Home and End keys and the Minimize and Maximize
    buttons, no event starts a transition to the snap point the sheet is
    already at: whenever such an event takes an idle sheet to a running
    transition, the transition's target differs from the current snap
    point. *)
Theorem guarded_requests_change_target (M : JSMath) (p : Props) (s s' : State)
  (e : Event) :
  Idle s ->
  guardedRequest e = true ->
  step M p e s = Some s' ->
  Running s' ->
  exists a,
    animationRef s' = Some a /\ targetSnapPoint a <> currentSnapPoint s.
Proof.
  unfold Idle, Running. intros Hidle Hg Hstep Hrun.
  assert (Hreq : forall s0 now target,
            isAnimating s0 = false -> currentSnapPoint s0 = currentSnapPoint s ->
            target <> currentSnapPoint s ->
            animateToSnapPoint s0 now target = Some s' ->
            exists a, animationRef s' = Some a
                      /\ targetSnapPoint a <> currentSnapPoint s).
  { intros s0 now target H0 Hc0 Hne H.
    destruct (animateToSnapPoint_inv s0 s' now target H)
      as [[Ha _] | (_ & tc & cc & _ & _ & ->)]; [congruence |].
    eexists. split; [reflexivity |]. exact Hne. }
  assert (Hcmd : forall e0, e0 = e -> isCommand e0 = true -> wellFormed e0 = true ->
            exists a, animationRef s' = Some a
                      /\ targetSnapPoint a <> currentSnapPoint s).
  { intros e0 -> Hc Hwf.
    destruct (command_outcome M p s e Hwf Hc)
      as [H | [H | (now & target & _ & Hne & H)]]; rewrite Hstep in H.
    - inversion H. congruence.
    - inversion H. subst s'. cbn in Hrun. congruence.
    - symmetry in H. exact (Hreq s now target Hidle eq_refl (Hne Hg) H). }
  destruct e; cbn [step] in Hstep;
    try (apply (Hcmd _ eq_refl eq_refl eq_refl)).
  - inversion Hstep. subst s'. cbn in Hrun. congruence.
  - inversion Hstep. subst s'. unfold handleTouchStart in Hrun.
    rewrite Hidle in Hrun. cbn in Hrun. congruence.
  - inversion Hstep. subst s'. unfold handleTouchMove in Hrun.
    destruct (negb (isDragging s) || isAnimating s); [congruence |].
    destruct (calculateVelocity _ _ _) as [w v]. cbn in Hrun. congruence.
  - destruct (touchEnd_outcome s now)
      as [[Hn _] | [H | [H | [H | (target & _ & Hne & _ & H)]]]];
      rewrite Hstep in *; try discriminate Hn.
    + inversion H. congruence.
    + inversion H. subst s'. cbn in Hrun. congruence.
    + inversion H. subst s'. cbn in Hrun. congruence.
    + symmetry in H.
      exact (Hreq (setIsDragging false s) now target Hidle eq_refl Hne H).
  - unfold handleSnapPointClick in Hstep.
    destruct (String.eqb_spec snapPoint (currentSnapPoint s)) as [E | N];
      cbn [negb andb] in Hstep.
    + inversion Hstep. congruence.
    + rewrite Hidle in Hstep. cbn [negb] in Hstep.
      exact (Hreq s now snapPoint Hidle eq_refl N Hstep).
  - inversion Hstep. subst s'. unfold frame in Hrun.
    destruct (animationRef s) as [a |]; [| congruence].
    unfold animate in Hrun.
    destruct (linearProgress a currentTime <? 1); cbn in Hrun; congruence.
  - inversion Hstep. subst s'. cbn in Hrun. congruence.
Qed.

Lemma guarded_requests_change_target_witness :
  exists a,
    animationRef runningState = Some a /\ targetSnapPoint a <> "half-open".
Proof.
  apply (guarded_requests_change_target linearMath demoProps restingState
           runningState (KeyDown "ArrowUp" 0) eq_refl eq_refl eq_refl eq_refl).
Defined.

End CompositionClaims.

(** *** Displayed extent and gesture release *)

Section GestureFacts.

Local Open Scope string_scope.
Local Open Scope float_scope.

(** X12: a transition between [closed] and another snap point is not
    interpolated: the height of [closed] is in pixels and the others are
    percentages, so from the moment the transition is requested and
    through all events until it completes or is withdrawn, the displayed
    extent is the target snap point's configured height. *)
Theorem closed_transition_shows_target (M : JSMath) (p : Props) (s s1 : State)
  (now : float) (target : string) (events : list Event) :
  Idle s ->
  animateToSnapPoint s now target = Some s1 ->
  (currentSnapPoint s = "closed" /\ target <> "closed")
  \/ (currentSnapPoint s <> "closed" /\ target = "closed") ->
  forallb (keepsRunning (requestedAnimation s now target)) events = true ->
  exists s' targetConfig,
    run M p events s1 = Some s'
    /\ property (snapPointConfig s) target = Some targetConfig
    /\ getCurrentHeight s' = Some (height targetConfig).
Proof.
  unfold Idle. intros Hidle Hreq Hmix Hall.
  destruct (animateToSnapPoint_inv s s1 now target Hreq)
    as [[Ha _] | (_ & tc & cc & Htc & Hcc & Hs1)]; [congruence |].
  assert (Hrun1 : isAnimating s1 = true) by (rewrite Hs1; reflexivity).
  assert (Href : animationRef s1 = Some (requestedAnimation s now target))
    by (rewrite Hs1; reflexivity).
  destruct (run_keeps_running M p events s1 _ Hrun1 Href Hall)
    as (s' & Hrun & Hrun' & _ & _ & _ & Hstart & Htarget).
  exists s', tc. split; [exact Hrun |]. split; [exact Htc |].
  rewrite getCurrentHeight_running by exact Hrun'.
  rewrite Hstart, Htarget, Hs1. cbn [startHeight targetHeight setAnimationRef
    setAnimationProgress setIsAnimating setTargetHeight setStartHeight].
  pose proof (proj2 (config_table s target) tc Htc) as Hut.
  pose proof (proj2 (config_table s (currentSnapPoint s)) cc Hcc) as Huc.
  unfold interpolate. rewrite Hut, Huc.
  destruct Hmix as [[Ec Nt] | [Nc Et]].
  - rewrite Ec. cbn.
    destruct (String.eqb_spec target "closed"); [contradiction | reflexivity].
  - rewrite Et. cbn.
    destruct (String.eqb_spec (currentSnapPoint s) "closed");
      [contradiction | reflexivity].
Qed.

Lemma closed_transition_shows_target_witness :
  exists s',
    run linearMath demoProps [Frame 100; Resize 375 667; Frame 300] closingState
      = Some s'
    /\ getCurrentHeight s' = Some (px 80).
Proof.
  assert (Hreq : animateToSnapPoint restingState 0 "closed" = Some closingState)
    by (vm_compute; reflexivity).
  assert (Hne : currentSnapPoint restingState <> "closed") by discriminate.
  assert (Hall : forallb (keepsRunning (requestedAnimation restingState 0 "closed"))
                   [Frame 100; Resize 375 667; Frame 300] = true)
    by (vm_compute; reflexivity).
  assert (Hconfig : option_map height (property (snapPointConfig restingState) "closed")
                    = Some (px 80))
    by (vm_compute; reflexivity).
  destruct (closed_transition_shows_target linearMath demoProps restingState
              closingState 0 "closed" [Frame 100; Resize 375 667; Frame 300]
              eq_refl Hreq (or_intror (conj Hne eq_refl)) Hall)
    as (s' & tc & Hrun & Htc & Hh).
  exists s'. split; [exact Hrun |].
  rewrite Hh. rewrite Htc in Hconfig. exact Hconfig.
Defined.

(** X13: the pointer coordinates recorded during a drag have no
    influence on what the gesture end does: with other values in
    [startY] and [currentY] the handler fails or succeeds alike and
    produces the same state up to those two cells. *)
Theorem touchEnd_ignores_pointer_position (s : State) (now y0 y1 : float) :
  handleTouchEnd (setCurrentY y1 (setStartY y0 s)) now
  = option_map (fun s' => setCurrentY y1 (setStartY y0 s')) (handleTouchEnd s now).
Proof.
  unfold handleTouchEnd. cbn [isDragging isAnimating setCurrentY setStartY].
  destruct (negb (isDragging s) || isAnimating s); [reflexivity |].
  change (getCurrentHeight (setCurrentY y1 (setStartY y0 s))) with (getCurrentHeight s).
  destruct (getCurrentHeight s) as [hgt |]; [| reflexivity].
  change (determineTargetSnapPoint (setCurrentY y1 (setStartY y0 s)) hgt
            (dragVelocity (setCurrentY y1 (setStartY y0 s))))
    with (determineTargetSnapPoint s hgt (dragVelocity s)).
  cbn [currentSnapPoint setCurrentY setStartY].
  destruct (determineTargetSnapPoint s hgt (dragVelocity s)) as [t |].
  - destruct (String.eqb t "closed" && String.eqb (currentSnapPoint s) "closed");
      [reflexivity |].
    destruct (negb (String.eqb t (currentSnapPoint s))); [| reflexivity].
    unfold animateToSnapPoint.
    cbn [isAnimating currentSnapPoint setIsDragging setCurrentY setStartY].
    destruct (isAnimating s); [reflexivity |].
    change (snapPointConfig (setIsDragging false (setCurrentY y1 (setStartY y0 s))))
      with (snapPointConfig s).
    change (snapPointConfig (setIsDragging false s)) with (snapPointConfig s).
    destruct (property (snapPointConfig s) t); [| reflexivity].
    destruct (property (snapPointConfig s) (currentSnapPoint s)); reflexivity.
  - unfold animateToValue.
    cbn [isAnimating setIsDragging setCurrentY setStartY].
    destruct (isAnimating s); reflexivity.
Qed.

(** X14: a release without fast motion is decided by the resting height
    alone.  On an idle sheet with an open session and a drag velocity not
    above the threshold, whatever the device class and viewport, the
    release at [half-open] starts the transition to [fully-open] and the
    release at [fully-open] only closes the session. *)
Theorem slow_release_from_rest (s : State) (now : float) :
  isDragging s = true ->
  Idle s ->
  (velocityThreshold s <? PrimFloat.abs (dragVelocity s)) = false ->
  (currentSnapPoint s = "half-open" ->
   handleTouchEnd s now = animateToSnapPoint (setIsDragging false s) now "fully-open")
  /\ (currentSnapPoint s = "fully-open" ->
      handleTouchEnd s now = Some (setIsDragging false s)).
Proof.
  unfold Idle. intros Hdrag Hidle Hslow.
  split; intros Hcur; unfold handleTouchEnd;
    rewrite Hdrag, Hidle; cbn [negb orb];
    rewrite getCurrentHeight_idle by exact Hidle;
    unfold currentConfig, snapPointConfig, getSnapPointConfig,
      determineTargetSnapPoint, heightPercent, snapThresholds;
    rewrite Hslow, Hcur;
    destruct (isTablet s), (isMobile s); reflexivity.
Qed.

Lemma slow_release_from_rest_witness :
  option_map currentSnapPoint (handleTouchEnd draggingState 20) = Some "half-open"
  /\ option_map (fun s => option_map targetSnapPoint (animationRef s))
       (handleTouchEnd draggingState 20) = Some (Some "fully-open").
Proof.
  destruct (slow_release_from_rest draggingState 20 eq_refl eq_refl eq_refl)
    as [Hhalf _].
  rewrite (Hhalf eq_refl). split; reflexivity.
Defined.

(** X15: a release on the resting [closed] sheet never leaves it as it
    was.  On an idle sheet at [closed] with an open session, the gesture
    end either signals the close request (when [closed] is selected,
    as it is for a fast downward release) or starts a transition to
    another snap point (to [half-open] for a fast upward release). *)
Theorem release_at_closed (s : State) (now : float) :
  isDragging s = true ->
  Idle s ->
  currentSnapPoint s = "closed" ->
  (handleTouchEnd s now = Some (onClose (setIsDragging false s))
   \/ exists target s',
        target <> "closed"
        /\ In target snapPointOrder
        /\ handleTouchEnd s now = Some s'
        /\ Running s'
        /\ option_map targetSnapPoint (animationRef s') = Some target)
  /\ ((velocityThreshold s <? PrimFloat.abs (dragVelocity s)) = true ->
      if dragVelocity s <? 0
      then handleTouchEnd s now
           = animateToSnapPoint (setIsDragging false s) now "half-open"
      else handleTouchEnd s now = Some (onClose (setIsDragging false s))).
Proof.
  unfold Idle, Running. intros Hdrag Hidle Hcur.
  assert (Hin : In (currentSnapPoint s) snapPointOrder) by (rewrite Hcur; cbn; auto).
  destruct (config_of_member s _ Hin) as (cc & Hcc).
  assert (Hh : getCurrentHeight s = Some (height cc)).
  { rewrite getCurrentHeight_idle by exact Hidle. unfold currentConfig.
    rewrite Hcc. reflexivity. }
  split.
  - destruct (determineTargetSnapPoint_total s (height cc) (dragVelocity s))
      as (target & Ht & Htin).
    unfold handleTouchEnd. rewrite Hdrag, Hidle, Hh, Ht, Hcur. cbn [negb orb].
    destruct (String.eqb_spec target "closed") as [E | N]; cbn [andb negb].
    + left. reflexivity.
    + right. destruct (config_of_member s target Htin) as (tc & Htc).
      destruct (animateToSnapPoint_idle (setIsDragging false s) now target tc cc
                  Hidle Htc Hcc)
        as (s' & Hs' & Hrun & Href & _).
      exists target, s'. rewrite Href. auto.
  - intros Hfast. unfold handleTouchEnd. rewrite Hdrag, Hidle, Hh. cbn [negb orb].
    unfold determineTargetSnapPoint. rewrite Hfast, Hcur.
    destruct (dragVelocity s <? 0); reflexivity.
Qed.

Lemma release_at_closed_witness :
  let s := handleTouchStart (mount twoPointProps 1280 800) 700 0 in
  handleTouchEnd s 20 = Some (onClose (setIsDragging false s))
  \/ exists target s',
       target <> "closed" /\ In target snapPointOrder
       /\ handleTouchEnd s 20 = Some s' /\ Running s'
       /\ option_map targetSnapPoint (animationRef s') = Some target.
Proof.
  intros s.
  exact (proj1 (release_at_closed s 20 eq_refl eq_refl eq_refl)).
Defined.

(** X16: a session needs two moves before speed can matter.  After an
    accepted pointer-down, the first pointer-move leaves one sample in
    the window and a drag velocity of exactly 0, whatever the positions
    and times, so a release after a single move is decided by the
    position rule. *)
Theorem first_move_has_zero_velocity (s : State) (y0 t0 y1 t1 : float) :
  Idle s ->
  let s2 := handleTouchMove (handleTouchStart s y0 t0) y1 t1 in
  isDragging s2 = true
  /\ velocityRef s2 = [ {| y := y1; time := t1 |} ]
  /\ dragVelocity s2 = 0
  /\ forall currentHeight,
       determineTargetSnapPoint s2 currentHeight (dragVelocity s2)
       = selectByPosition snapPointOrder (snapThresholds s2)
           (heightPercent s2 currentHeight).
Proof.
  intros Hidle s2. unfold Idle in Hidle.
  assert (Hs2 : s2 = setLastDragTime t1
                       (setLastDragY y1
                       (setDragVelocity 0
                       (setVelocityRef [ {| y := y1; time := t1 |} ]
                       (setCurrentY y1 (handleTouchStart s y0 t0)))))).
  { unfold s2, handleTouchMove, handleTouchStart. rewrite Hidle.
    cbn [isDragging isAnimating setVelocityRef setDragVelocity setLastDragTime
         setLastDragY setCurrentY setStartY setIsDragging negb orb].
    rewrite Hidle. reflexivity. }
  assert (Hstart : isDragging (handleTouchStart s y0 t0) = true).
  { unfold handleTouchStart. rewrite Hidle. reflexivity. }
  split; [rewrite Hs2; exact Hstart |].
  split; [rewrite Hs2; reflexivity |].
  split; [rewrite Hs2; reflexivity |].
  intros currentHeight. unfold determineTargetSnapPoint.
  replace (velocityThreshold s2 <? PrimFloat.abs (dragVelocity s2)) with false.
  - apply position_rule.
  - rewrite Hs2. cbn [dragVelocity setLastDragTime setLastDragY setDragVelocity].
    unfold velocityThreshold. destruct (isMobile _); reflexivity.
Qed.

Lemma first_move_has_zero_velocity_witness :
  dragVelocity (handleTouchMove (handleTouchStart restingState 400 0) 100 1) = 0.
Proof.
  exact (proj1 (proj2 (proj2
    (first_move_has_zero_velocity restingState 400 0 100 1 eq_refl)))).
Defined.

End GestureFacts.

(** *** Announcements and the order of the position rule *)

Section History.

Local Open Scope string_scope.
Local Open Scope float_scope.

Variable M : JSMath.
Variable p : Props.

Lemma request_keeps_history (s s' : State) (now : float) (target : string) :
  animateToSnapPoint s now target = Some s' ->
  settled s' = settled s /\ currentSnapPoint s' = currentSnapPoint s.
Proof.
  intros H.
  destruct (animateToSnapPoint_inv s s' now target H)
    as [[_ ->] | (_ & tc & cc & _ & _ & ->)]; split; reflexivity.
Qed.

(** One event leaves the current snap point and the announcements as
    they are, or moves to a snap point and announces it. *)
Lemma step_history (s s' : State) (e : Event) :
  step M p e s = Some s' ->
  (settled s' = settled s /\ currentSnapPoint s' = currentSnapPoint s)
  \/ (settled s' = (settled s ++ [currentSnapPoint s'])%list).
Proof.
  intros Hstep.
  assert (Hcmd : forall e0, e0 = e -> isCommand e0 = true -> wellFormed e0 = true ->
            settled s' = settled s /\ currentSnapPoint s' = currentSnapPoint s).
  { intros e0 -> Hc Hwf.
    destruct (command_outcome M p s e Hwf Hc)
      as [H | [H | (now & target & _ & _ & H)]]; rewrite Hstep in H.
    - inversion H. auto.
    - inversion H. auto.
    - symmetry in H. exact (request_keeps_history _ _ _ _ H). }
  destruct e; cbn [step] in Hstep;
    try (left; apply (Hcmd _ eq_refl eq_refl eq_refl)).
  - inversion Hstep. left. auto.
  - inversion Hstep. left. unfold handleTouchStart.
    destruct (isAnimating s); auto.
  - inversion Hstep. left. unfold handleTouchMove.
    destruct (negb (isDragging s) || isAnimating s); [auto |].
    destruct (calculateVelocity _ _ _) as [w v]. auto.
  - left. destruct (touchEnd_outcome s now)
      as [[Hn _] | [H | [H | [H | (target & _ & _ & _ & H)]]]];
      rewrite Hstep in *; try discriminate Hn.
    + inversion H. auto.
    + inversion H. auto.
    + inversion H. auto.
    + symmetry in H. exact (request_keeps_history _ _ _ _ H).
  - left. unfold handleSnapPointClick in Hstep.
    destruct (negb (String.eqb snapPoint (currentSnapPoint s)) && negb (isAnimating s)).
    + exact (request_keeps_history _ _ _ _ Hstep).
    + inversion Hstep. auto.
  - inversion Hstep. unfold frame.
    destruct (animationRef s) as [a |]; [| auto].
    unfold animate. destruct (linearProgress a currentTime <? 1); [left; auto |].
    right. reflexivity.
  - inversion Hstep. left. auto.
Qed.

End History.

Section HistoryClaims.

Import SpecFloat.
Local Open Scope string_scope.
Local Open Scope float_scope.

Lemma last_cons_default (a x : string) (l : list string) (d d' : string) :
  List.last (a :: l) d = List.last (x :: a :: l) d'.
Proof.
  revert a x. induction l as [| b l IH]; intros a x; [reflexivity |].
  change (List.last (a :: b :: l) d) with (List.last (b :: l) d).
  change (List.last (x :: a :: b :: l) d') with (List.last (a :: b :: l) d').
  apply IH.
Qed.

(** X17: over any run of events the list of announcements only grows, by
    the snap points announced during the run, and the current snap point
    at the end is the last of these, or the one at the start when nothing
    was announced; so the current snap point never changes without the
    new one being announced.  (The converse does not hold: an
    announcement need not be a change, as the Home key at [fully-open]
    re-announces [fully-open].) *)
Theorem snap_point_changes_are_announced (M : JSMath) (p : Props)
  (events : list Event) (s s' : State) :
  run M p events s = Some s' ->
  exists added,
    settled s' = (settled s ++ added)%list
    /\ currentSnapPoint s' = List.last added (currentSnapPoint s).
Proof.
  revert s. induction events as [| e events IH]; intros s Hrun.
  - inversion Hrun. exists []. rewrite app_nil_r. auto.
  - cbn [run] in Hrun. destruct (step M p e s) as [s1 |] eqn:Hstep; [| discriminate].
    destruct (IH s1 Hrun) as (added & Hset & Hcur).
    destruct (step_history M p s s1 e Hstep) as [[Hs Hc] | Hs].
    + exists added. rewrite Hset, Hs, Hcur, Hc. auto.
    + exists (currentSnapPoint s1 :: added). rewrite Hset, Hs, <- app_assoc.
      split; [reflexivity |]. rewrite Hcur.
      destruct added as [| a added]; [reflexivity |].
      apply last_cons_default.
Qed.

Lemma snap_point_changes_are_announced_witness :
  exists s',
    run linearMath demoProps
      [KeyDown "ArrowUp" 0; Frame 300; Frame 600; KeyDown "End" 700;
       TouchStart 400 800; Frame 1300] restingState = Some s'
    /\ settled s' = ["fully-open"; "closed"]
    /\ currentSnapPoint s' = "closed".
Proof.
  eexists. split; [vm_compute; reflexivity |].
  match goal with
  | |- settled ?st = _ /\ _ =>
      destruct (snap_point_changes_are_announced linearMath demoProps
                  [KeyDown "ArrowUp" 0; Frame 300; Frame 600; KeyDown "End" 700;
                   TouchStart 400 800; Frame 1300] restingState st)
        as (added & Hset & Hcur); [vm_compute; reflexivity |]
  end.
  split; vm_compute; reflexivity.
Defined.

Lemma SFleb_trans (a b c : spec_float) :
  SFleb a b = true -> SFleb b c = true -> SFleb a c = true.
Proof.
  unfold SFleb, SFcompare.
  destruct a as [sa | sa | | sa ma ea], b as [sb | sb | | sb mb eb],
           c as [sc | sc | | sc mc ec];
    try discriminate; try reflexivity;
    try (destruct sa; try discriminate; try reflexivity);
    try (destruct sb; try discriminate; try reflexivity);
    try (destruct sc; try discriminate; try reflexivity);
    change (Pos.compare_cont Eq) with Pos.compare;
    repeat match goal with
           | |- context [Z.compare ?x ?z] => destruct (Z.compare_spec x z)
           | |- context [Pos.compare ?x ?z] => destruct (Pos.compare_spec x z)
           end; cbn; try discriminate; try reflexivity; intros; exfalso; lia.
Qed.

Lemma leb_trans (x z t : float) :
  (x <=? z) = true -> (z <=? t) = true -> (x <=? t) = true.
Proof. rewrite !leb_spec. apply SFleb_trans. Qed.

(** X18: the position rule is monotone in the extent fraction.  For a
    velocity not above the threshold, a height whose fraction is at
    least that of another never selects a snap point earlier in the
    sequence. *)
Theorem position_rule_monotone (s : State) (h1 h2 : Length) (velocity : float) :
  (velocityThreshold s <? PrimFloat.abs velocity) = false ->
  (heightPercent s h1 <=? heightPercent s h2) = true ->
  exists t1 t2,
    determineTargetSnapPoint s h1 velocity = Some t1
    /\ determineTargetSnapPoint s h2 velocity = Some t2
    /\ (indexOf snapPointOrder t1 <= indexOf snapPointOrder t2)%Z.
Proof.
  intros Hslow Hle. unfold determineTargetSnapPoint. rewrite Hslow.
  set (f1 := heightPercent s h1) in *. set (f2 := heightPercent s h2) in *.
  assert (Htrans : forall t, (f2 <=? t) = true -> (f1 <=? t) = true)
    by (intros t; apply leb_trans, Hle).
  unfold snapThresholds, snapPointOrder.
  destruct (isMobile s); cbn [firstThreshold];
    repeat match goal with
           | |- context [f2 <=? ?t] =>
               let E := fresh "E" in
               destruct (f2 <=? t) eqn:E; [rewrite (Htrans t E) |]
           end;
    repeat match goal with
           | |- context [f1 <=? ?t] => destruct (f1 <=? t)
           end;
    do 2 eexists; (split; [reflexivity |]); (split; [reflexivity |]);
    vm_compute; discriminate.
Qed.

Lemma position_rule_monotone_witness :
  exists t1 t2,
    determineTargetSnapPoint restingState (pct 20) 0 = Some t1
    /\ determineTargetSnapPoint restingState (pct 80) 0 = Some t2
    /\ (indexOf snapPointOrder t1 <= indexOf snapPointOrder t2)%Z.
Proof.
  apply (position_rule_monotone restingState (pct 20) (pct 80) 0); reflexivity.
Defined.

End HistoryClaims.
